(** * A deep-property comparator for [Array.prototype.sort]

    Shallow embedding of the comparator factory [createDeepPropertySorter]
    and of its helpers [getValueByPath], [getSortGroup] and [getFirstValid].

    The repository holds two versions of the factory:
    - the four-group version (letters, digits, symbols, missing), which also
      accepts numbers: module [Part000];
    - the two-group version (letter-led against everything else), which only
      accepts strings: module [App].

    Conventions of the embedding.
    - A JavaScript string is a sequence of UTF-16 code units.  The embedding
      keeps the code units U+0000 to U+00FF, one [ascii] each (Latin-1), so
      that [trim], [toLowerCase] and the regular expressions of the source are
      executable functions.
    - A JavaScript number is kept in the decimal form that [Number::toString]
      works on (sign, significand digits, decimal exponent).
    - Member access [acc[key]] throws a [TypeError] on [undefined] and [null];
      the optional chain [acc?.[key]] guards it.  Results are completions
      (a value or a thrown exception).
    - What the host gives for a key that is not an own data property of a
      value (a method such as [toString] found on a built-in prototype, the
      result of an accessor, which may throw) is a parameter, [inherited]. *)

From Stdlib Require Import ZArith NArith List String Ascii Bool Lia Sorted.
From Stdlib Require Import DecimalString DecimalPos DecimalN.
Import ListNotations.

Local Open Scope string_scope.
Local Open Scope Z_scope.

(* ------------------------------------------------------------------ *)
(** ** Strings *)

(** [WhiteSpace] and [LineTerminator] code units below U+0100: TAB, LF, VT,
    FF, CR, SPACE and NO-BREAK SPACE.  These are what [trim] removes. *)
Definition isWhiteSpace (c : ascii) : bool :=
  let n := N_of_ascii c in
  ((9 <=? n) && (n <=? 13) || (n =? 32) || (n =? 160))%N.

(** [String.prototype.trimStart]. *)
Fixpoint trimStart (s : string) : string :=
  match s with
  | "" => ""
  | String c r => if isWhiteSpace c then trimStart r else s
  end.

(** [String.prototype.trimEnd]. *)
Fixpoint trimEnd (s : string) : string :=
  match s with
  | "" => ""
  | String c r =>
      match trimEnd r with
      | "" => if isWhiteSpace c then "" else String c ""
      | r' => String c r'
      end
  end.

(** [String.prototype.trim]. *)
Definition trim (s : string) : string := trimEnd (trimStart s).

(** Lower-case mapping of one code unit below U+0100: A-Z, and the Latin-1
    capitals U+00C0 to U+00DE except the multiplication sign U+00D7. *)
Definition lowerChar (c : ascii) : ascii :=
  let n := N_of_ascii c in
  if ((65 <=? n) && (n <=? 90)
      || (192 <=? n) && (n <=? 222) && negb (n =? 215))%N
  then ascii_of_N (n + 32)
  else c.

(** [String.prototype.toLowerCase], on code units below U+0100.  Above, the
    mapping of the host is not embedded; it can turn a code unit that is no
    ASCII letter into one (U+212A KELVIN SIGN lower-cases to k). *)
Fixpoint toLowerCase (s : string) : string :=
  match s with
  | "" => ""
  | String c r => String (lowerChar c) (toLowerCase r)
  end.

(** [String.prototype.split] with a one-character separator.  The result is
    never empty; empty segments are kept. *)
Fixpoint split (sep : ascii) (s : string) : list string :=
  match s with
  | "" => [""]
  | String c r =>
      if Ascii.eqb c sep then "" :: split sep r
      else match split sep r with
           | seg :: segs => String c seg :: segs
           | [] => [String c ""]
           end
  end.

(** A string is truthy when it is not empty. *)
Definition truthy (s : string) : bool :=
  match s with "" => false | _ => true end.

Definition isAsciiLetter (c : ascii) : bool :=
  let n := N_of_ascii c in
  ((65 <=? n) && (n <=? 90) || (97 <=? n) && (n <=? 122))%N.

Definition isAsciiDigit (c : ascii) : bool :=
  let n := N_of_ascii c in ((48 <=? n) && (n <=? 57))%N.

Fixpoint existsChar (p : ascii -> bool) (s : string) : bool :=
  match s with
  | "" => false
  | String c r => p c || existsChar p r
  end.

(** [/[a-z]/i.test(s)]: some code unit of [s] is an ASCII letter.  Without
    the [u] flag, case-insensitive matching canonicalises with
    [toUpperCase] and never maps a code unit above U+007F into A-Z. *)
Definition test_letter (s : string) : bool := existsChar isAsciiLetter s.

(** [/\d/.test(s)]: some code unit of [s] is one of 0-9. *)
Definition test_digit (s : string) : bool := existsChar isAsciiDigit s.

(** [/^[a-z]/i.test(s)]: the first code unit of [s] is an ASCII letter. *)
Definition test_leading_letter (s : string) : bool :=
  match s with
  | "" => false
  | String c _ => isAsciiLetter c
  end.

(* ------------------------------------------------------------------ *)
(** ** Numbers *)

(** A Number, in the form [Number::toString] reads it.  [Finite neg s n] is
    the non-zero value [± 0.d1...dk × 10^n], where [d1...dk] are the decimal
    digits of [s] (trailing zeros of [s] do not count).  Every double has
    such a form; [Zero true] is [-0]. *)
Inductive number : Type :=
| NaN
| Infinity (negative : bool)
| Zero (negative : bool)
| Finite (negative : bool) (s : positive) (n : Z).

(** [x < 0] on numbers: [-0 < 0] and [NaN < 0] are false. *)
Definition isNegative (x : number) : bool :=
  match x with
  | Infinity neg | Finite neg _ _ => neg
  | NaN | Zero _ => false
  end.

(** Unary minus. *)
Definition negate (x : number) : number :=
  match x with
  | NaN => NaN
  | Infinity neg => Infinity (negb neg)
  | Zero neg => Zero (negb neg)
  | Finite neg s n => Finite (negb neg) s n
  end.

Definition isFiniteNumber (x : number) : bool :=
  match x with
  | NaN | Infinity _ => false
  | Zero _ | Finite _ _ _ => true
  end.

Fixpoint dropTrailingZeros (s : string) : string :=
  match s with
  | "" => ""
  | String c r =>
      match dropTrailingZeros r with
      | "" => if Ascii.eqb c "0" then "" else String c ""
      | r' => String c r'
      end
  end.

(** The digits [d1...dk] of the significand, [k] as small as possible: the
    decimal digits of [s] without its trailing zeros.  The leading digit of a
    positive number is never zero and is kept as it is. *)
Definition significand (s : positive) : string :=
  match NilEmpty.string_of_uint (Pos.to_uint s) with
  | "" => ""
  | String d ds => String d (dropTrailingZeros ds)
  end.

Fixpoint zeros (n : nat) : string :=
  match n with
  | O => ""
  | S m => String "0" (zeros m)
  end.

(** Decimal representation of a natural number. *)
Definition decimalOfN (x : N) : string := NilZero.string_of_uint (N.to_uint x).

(** The exponent part ["e+21"], ["e-7"] of [Number::toString]: the exponent
    shown is [n - 1]. *)
Definition exponentPart (n : Z) : string :=
  let e := n - 1 in
  "e" ++ (if e <? 0 then "-" else "+") ++ decimalOfN (Z.abs_N e).

(** [Number::toString(x, 10)] for a finite [x > 0]. *)
Definition positiveToString (s : positive) (n : Z) : string :=
  let ds := significand s in
  let k := Z.of_nat (String.length ds) in
  if (-5 <=? n) && (n <=? 21) then
    if k <=? n then ds ++ zeros (Z.to_nat (n - k))
    else if 0 <? n then
      substring 0 (Z.to_nat n) ds ++ "." ++ substring (Z.to_nat n) (Z.to_nat (k - n)) ds
    else "0." ++ zeros (Z.to_nat (- n)) ++ ds
  else
    match ds with
    | "" => ""
    | String d "" => String d (exponentPart n)
    | String d rest => String d ("." ++ rest ++ exponentPart n)
    end.

(** [String(x)] for a Number [x], that is [Number::toString(x, 10)]. *)
Definition numberToString (x : number) : string :=
  match x with
  | NaN => "NaN"
  | Zero _ => "0"
  | Infinity false => "Infinity"
  | Infinity true => "-Infinity"
  | Finite false s n => positiveToString s n
  | Finite true s n => "-" ++ positiveToString s n
  end.

(** The Number of a natural number (a length, an index). *)
Definition numberOfN (x : N) : number :=
  match x with
  | N0 => Zero false
  | Npos p => Finite false p (Z.of_nat (String.length (decimalOfN x)))
  end.

Definition numberOfZ (x : Z) : number :=
  match x with
  | Z0 => Zero false
  | Zpos p => numberOfN (Npos p)
  | Zneg p => negate (numberOfN (Npos p))
  end.

(* ------------------------------------------------------------------ *)
(** ** Values and property lookup *)

(** The values a record is made of.  An object is the list of its own
    properties; the first binding of a key is the one in effect.  A function
    is an object that can be called; only its own properties matter here. *)
#[warnings="-register-all"]
Inductive value : Type :=
| VUndef
| VNull
| VBool (b : bool)
| VNum (x : number)
| VStr (s : string)
| VObj (props : list (string * value))
| VArr (elems : list value)
| VFun (props : list (string * value)).

(** The results of [typeof]. *)
Inductive jstype : Type :=
| TUndefined | TObject | TBoolean | TNumber | TString | TFunction.

Definition typeOf (v : value) : jstype :=
  match v with
  | VUndef => TUndefined
  | VNull => TObject
  | VBool _ => TBoolean
  | VNum _ => TNumber
  | VStr _ => TString
  | VObj _ | VArr _ => TObject
  | VFun _ => TFunction
  end.

(** [undefined] or [null]. *)
Definition isNullish (v : value) : bool :=
  match v with
  | VUndef | VNull => true
  | _ => false
  end.

Fixpoint lookup (key : string) (props : list (string * value)) : option value :=
  match props with
  | [] => None
  | (k, v) :: rest => if String.eqb k key then Some v else lookup key rest
  end.

(** The integer index a property key denotes, if it is a canonical numeric
    string: decimal digits that print back to themselves (no leading zero,
    and below 10^21, where numbers start to print with an exponent). *)
Definition arrayIndex (key : string) : option N :=
  match NilZero.uint_of_string key with
  | Some u =>
      let i := N.of_uint u in
      if String.eqb (decimalOfN i) key && (i <? 10 ^ 21)%N then Some i else None
  | None => None
  end.

(** The own property [key] of a value that is neither [undefined] nor
    [null].  A string has [length] and one property per index, each a
    one-character string; an array has [length] and its elements; numbers and
    booleans have no own property. *)
Definition getOwnProperty (v : value) (key : string) : option value :=
  match v with
  | VObj props | VFun props => lookup key props
  | VStr s =>
      if String.eqb key "length" then
        Some (VNum (numberOfN (N.of_nat (String.length s))))
      else
        match arrayIndex key with
        | Some i =>
            match String.get (N.to_nat i) s with
            | Some c => Some (VStr (String c ""))
            | None => None
            end
        | None => None
        end
  | VArr elems =>
      if String.eqb key "length" then
        Some (VNum (numberOfN (N.of_nat (List.length elems))))
      else
        match arrayIndex key with
        | Some i => nth_error elems (N.to_nat i)
        | None => None
        end
  | VUndef | VNull | VBool _ | VNum _ => None
  end.

(** Completions: an evaluation returns a value or throws. *)
Inductive exception : Type := TypeError.

Inductive completion (A : Type) : Type :=
| Normal (a : A)
| Throw (e : exception).

Arguments Normal {A} a.
Arguments Throw {A} e.

Definition bind {A B : Type} (c : completion A) (k : A -> completion B)
  : completion B :=
  match c with
  | Normal a => k a
  | Throw e => Throw e
  end.

Notation "x <- c ;; k" := (bind c (fun x => k))
  (at level 61, c at next level, right associativity).

(** [Array.prototype.reduce] with an initial value, over a callback that may
    throw. *)
Fixpoint reduce {A B : Type} (f : A -> B -> completion A) (l : list B)
  (init : A) : completion A :=
  match l with
  | [] => Normal init
  | x :: rest => acc <- f init x ;; reduce f rest acc
  end.

Section Host.

(** What the host gives for a key that is not an own data property: the
    prototype chain is searched, and an accessor found there is run.  The
    read returns a value (a method such as [toString], or [undefined]) or
    throws, as the accessors [caller] and [arguments] of
    [Function.prototype] do. *)
Variable inherited : value -> string -> completion value.

(** [acc[key]]: member access.  It throws on [undefined] and [null]. *)
Definition getMember (acc : value) (key : string) : completion value :=
  if isNullish acc then Throw TypeError
  else match getOwnProperty acc key with
       | Some v => Normal v
       | None => inherited acc key
       end.

(** [acc?.[key]]: the optional chain gives [undefined] on [undefined] and
    [null], and is member access otherwise. *)
Definition optionalChain (acc : value) (key : string) : completion value :=
  if isNullish acc then Normal VUndef else getMember acc key.

(** [path.split('.').reduce((acc, key) => acc?.[key], obj)]. *)
Definition getValueByPath (obj : value) (path : string) : completion value :=
  reduce (fun acc key => optionalChain acc key) (split "." path) obj.

End Host.

(** A host whose prototype chain holds nothing: every key that is not an own
    property is [undefined]. *)
Definition bareHost : value -> string -> completion value :=
  fun _ _ => Normal VUndef.

(** A host that holds, of the built-in prototypes, the two accessors of
    [Function.prototype] that throw: reading [caller] or [arguments] on a
    function that has no such property of its own throws a [TypeError];
    every other key that is not an own property is [undefined]. *)
Definition strictHost : value -> string -> completion value :=
  fun v key =>
    match v with
    | VFun _ =>
        if String.eqb key "caller" || String.eqb key "arguments"
        then Throw TypeError
        else Normal VUndef
    | _ => Normal VUndef
    end.

(** The argument of the factory: one path, or an array of paths. *)
Inductive keyOrKeys : Type :=
| OneKey (key : string)
| ManyKeys (keys : list string).

(** [Array.isArray(keyOrKeys) ? keyOrKeys : [keyOrKeys]]. *)
Definition normalizeKeys (k : keyOrKeys) : list string :=
  match k with
  | OneKey key => [key]
  | ManyKeys keys => keys
  end.

(* ------------------------------------------------------------------ *)
(** ** The four-group comparator *)

Module Part000.

(** Sort group of an extracted value: 0 letter, 1 digit, 2 other symbol,
    3 missing. *)
Definition getSortGroup (value : string) : Z :=
  match value with
  | "" => 3                                   (* if (!value) return 3 *)
  | String c _ =>
      let first := String c "" in             (* value[0] *)
      if test_letter first then 0
      else if test_digit first then 1
      else 2
  end.

Section Sorter.

Variable inherited : value -> string -> completion value.

(** [a.localeCompare(b, 'de-DE', { sensitivity: 'base' })], the collation
    of the host. *)
Variable localeCompare : string -> string -> Z.

(** The loop of [getFirstValid] over the paths that remain. *)
Fixpoint getFirstValid (keys : list string) (item : value)
  : completion string :=
  match keys with
  | [] => Normal ""
  | key :: rest =>
      value <- getValueByPath inherited item key ;;
      match value with
      | VNum x =>                        (* typeof value === 'number' *)
          Normal (numberToString x)      (* String(value) *)
      | VStr s =>                        (* typeof value === 'string' *)
          if truthy (trim s) then Normal (toLowerCase (trim s))
          else getFirstValid rest item
      | _ => getFirstValid rest item
      end
  end.

(** The comparator [createDeepPropertySorter(keyOrKeys)]. *)
Definition createDeepPropertySorter (k : keyOrKeys) (a b : value)
  : completion Z :=
  let keys := normalizeKeys k in
  aVal <- getFirstValid keys a ;;
  bVal <- getFirstValid keys b ;;
  let aGroup := getSortGroup aVal in
  let bGroup := getSortGroup bVal in
  if negb (aGroup =? bGroup) then Normal (aGroup - bGroup)
  else Normal (localeCompare aVal bVal).

End Sorter.

End Part000.

(* ------------------------------------------------------------------ *)
(** ** The two-group comparator *)

Module App.

Section Sorter.

Variable inherited : value -> string -> completion value.
Variable localeCompare : string -> string -> Z.

(** The loop of [getFirstValid]: only strings are accepted. *)
Fixpoint getFirstValid (keys : list string) (item : value)
  : completion string :=
  match keys with
  | [] => Normal ""
  | key :: rest =>
      value <- getValueByPath inherited item key ;;
      match value with
      | VStr s =>                        (* typeof value === 'string' *)
          if truthy (trim s) then Normal (toLowerCase (trim s))
          else getFirstValid rest item
      | _ => getFirstValid rest item
      end
  end.

(** The comparator [createDeepPropertySorter(keyOrKeys)]. *)
Definition createDeepPropertySorter (k : keyOrKeys) (a b : value)
  : completion Z :=
  let keys := normalizeKeys k in
  aVal <- getFirstValid keys a ;;
  bVal <- getFirstValid keys b ;;
  let aIsLetter := test_leading_letter aVal in
  let bIsLetter := test_leading_letter bVal in
  if aIsLetter && negb bIsLetter then Normal (-1)
  else if negb aIsLetter && bIsLetter then Normal 1
  else Normal (localeCompare aVal bVal).

End Sorter.

End App.

(* ------------------------------------------------------------------ *)
(** ** Notions used to state the properties *)

(** A resolved value stops the loop of [Part000.getFirstValid]: a number, or
    a string whose trimmed form is not empty. *)
Definition usable (v : value) : bool :=
  match v with
  | VNum _ => true
  | VStr s => truthy (trim s)
  | _ => false
  end.

(** The values the loop passes over in both versions: a string that trims to
    nothing, a boolean, a structure, [null], [undefined]. *)
Definition passedOver (v : value) : Prop :=
  (exists s, v = VStr s /\ trim s = "")
  \/ (exists b, v = VBool b)
  \/ (exists props, v = VObj props)
  \/ (exists elems, v = VArr elems)
  \/ v = VNull
  \/ v = VUndef.


(** A collation that satisfies the contract of [localeCompare]: the order of
    the code units of the lower-cased strings. *)
Definition codeUnitCollation (a b : string) : Z :=
  match String.compare (toLowerCase a) (toLowerCase b) with
  | Eq => 0
  | Lt => -1
  | Gt => 1
  end.

(** Sample records. *)
Definition recordOf (key : string) (v : value) : value := VObj [(key, v)].

Definition john : value :=
  VObj [("alias", VStr "  "); ("profile", VObj [("name", VStr " John ")])].

Definition provider : value :=
  VObj [("alias", VStr "#Provider"); ("name", VStr "Zeta")].

(** [/^\d/.test(s)]: the first code unit of [s] is a digit. *)
Definition test_leading_digit (s : string) : bool :=
  match s with
  | "" => false
  | String c _ => isAsciiDigit c
  end.

Fixpoint allChars (p : ascii -> bool) (s : string) : bool :=
  match s with
  | "" => true
  | String c r => p c && allChars p r
  end.

(** The characters a finite number is printed with. *)
Definition isNumberChar (c : ascii) : bool :=
  isAsciiDigit c || Ascii.eqb c "." || Ascii.eqb c "e"
  || Ascii.eqb c "+" || Ascii.eqb c "-".

(** The paths of [keys] all resolve, on [item], to values the four-group
    loop does not stop at. *)
Definition noneUsable (inherited : value -> string -> completion value)
  (keys : list string) (item : value) : Prop :=
  Forall (fun key => exists v,
              getValueByPath inherited item key = Normal v
              /\ usable v = false) keys.

(** The group of the value extracted from a record. *)
Definition groupOf (inherited : value -> string -> completion value)
  (keys : list string) (item : value) : completion Z :=
  v <- Part000.getFirstValid inherited keys item ;;
  Normal (Part000.getSortGroup v).


(** Every path of [keys] resolves to a value on [item]: no read throws. *)
Definition resolvesAll (inherited : value -> string -> completion value)
  (keys : list string) (item : value) : Prop :=
  Forall (fun key => exists v, getValueByPath inherited item key = Normal v) keys.

(** A record that holds a function, as an arrow function is: it has no
    [caller] of its own. *)
Definition callback : value := recordOf "f" (VFun []).



(** A record whose path [count] holds the number zero behind a blank alias. *)
Definition zeroCount : value :=
  VObj [("alias", VStr "  "); ("count", VNum (Zero false)); ("name", VStr "x")].

(** Two records on which neither [alias] nor [profile.name] is usable. *)
Definition blank : value :=
  VObj [("alias", VStr "   "); ("profile", VNull)].

Definition flagged : value :=
  VObj [("alias", VBool true); ("name", VStr "Zeta")].


Definition nothing : value := recordOf "x" (VStr "").

(** A record with the number -5 under [x], and one with the string "7abc". *)
Definition minusFive : value := recordOf "x" (VNum (Finite true 5 1)).

Definition sevenAbc : value := recordOf "x" (VStr "7abc").

(** [a] does not sort after [b]: the comparator returns a result that is
    not positive. *)
Definition notAfter (cmp : value -> value -> completion Z) (a b : value)
  : Prop :=
  exists r, cmp a b = Normal r /\ r <= 0.

(** No path of [keys] resolves to a number on [item]. *)
Definition numberFree (inherited : value -> string -> completion value)
  (keys : list string) (item : value) : Prop :=
  Forall (fun key => forall x,
              getValueByPath inherited item key <> Normal (VNum x)) keys.

(** The separator does not occur in [s]. *)
Definition freeOf (sep : ascii) (s : string) : bool :=
  negb (existsChar (Ascii.eqb sep) s).

(** Records with a letter-led, a digit-led and a symbol-led string under
    [x], and records with the numbers 10 and 9 there. *)
Definition alpha : value := recordOf "x" (VStr " Alpha").

Definition hash : value := recordOf "x" (VStr "#tag").

Definition ten : value := recordOf "x" (VNum (Finite false 10 2)).

Definition nine : value := recordOf "x" (VNum (Finite false 9 1)).

(** A record with a list of items. *)
Definition basket : value :=
  recordOf "items" (VArr [recordOf "name" (VStr "Pear"); VNull]).

(* ------------------------------------------------------------------ *)
(** ** Path resolution *)

Lemma split_not_nil sep s : split sep s <> [].
Proof.
  destruct s as [|c r]; simpl; [discriminate|].
  destruct (Ascii.eqb c sep); [discriminate|].
  destruct (split sep r); discriminate.
Qed.

Section ResolutionFacts.

Variable inherited : value -> string -> completion value.








(** An own property is found before the prototype chain is asked. *)
Lemma getValueByPath_own props key v :
  lookup key props = Some v ->
  split "." key = [key] ->
  getValueByPath inherited (VObj props) key = Normal v.
Proof.
  intros Hl Hs. unfold getValueByPath. rewrite Hs. simpl.
  unfold optionalChain, getMember. simpl. now rewrite Hl.
Qed.

End ResolutionFacts.

Lemma typeOf_number v : typeOf v = TNumber <-> exists x, v = VNum x.
Proof.
  split; [|intros [x ->]; reflexivity].
  destruct v; try discriminate. eauto.
Qed.

Lemma typeOf_string v : typeOf v = TString <-> exists s, v = VStr s.
Proof.
  split; [|intros [s ->]; reflexivity].
  destruct v; try discriminate. eauto.
Qed.

(** The checks of the repository's tests on [getValueByPath]. *)
Example retrieves_nested_value :
  getValueByPath bareHost
    (recordOf "a" (recordOf "b" (recordOf "c" (VStr "value")))) "a.b.c"
  = Normal (VStr "value").
Proof. reflexivity. Qed.

Example returns_undefined_for_invalid_path :
  getValueByPath bareHost
    (recordOf "a" (recordOf "b" (VNum (Finite false 123 3)))) "a.b.c"
  = Normal VUndef.
Proof. reflexivity. Qed.

Example returns_top_level_value :
  getValueByPath bareHost (recordOf "name" (VStr "Serhii")) "name"
  = Normal (VStr "Serhii").
Proof. reflexivity. Qed.

(* ------------------------------------------------------------------ *)
(** ** Group classification *)

Lemma test_letter_single c : test_letter (String c "") = isAsciiLetter c.
Proof. unfold test_letter. simpl. apply orb_false_r. Qed.

Lemma test_digit_single c : test_digit (String c "") = isAsciiDigit c.
Proof. unfold test_digit. simpl. apply orb_false_r. Qed.

Lemma getSortGroup_cons c r :
  Part000.getSortGroup (String c r)
  = if isAsciiLetter c then 0 else if isAsciiDigit c then 1 else 2.
Proof.
  unfold Part000.getSortGroup.
  now rewrite test_letter_single, test_digit_single.
Qed.

Lemma getSortGroup_range v : 0 <= Part000.getSortGroup v <= 3.
Proof.
  destruct v as [|c r]; [simpl; lia|].
  rewrite getSortGroup_cons.
  destruct (isAsciiLetter c), (isAsciiDigit c); lia.
Qed.

Lemma getSortGroup_letter v :
  Part000.getSortGroup v = 0 <-> test_leading_letter v = true.
Proof.
  destruct v as [|c r]; simpl test_leading_letter.
  - simpl. split; [lia|discriminate].
  - rewrite getSortGroup_cons.
    destruct (isAsciiLetter c), (isAsciiDigit c); split; intros; auto; lia || discriminate.
Qed.

Lemma letter_not_digit c : isAsciiLetter c = true -> isAsciiDigit c = false.
Proof.
  unfold isAsciiLetter, isAsciiDigit. intros H.
  apply orb_true_iff in H.
  apply andb_false_iff.
  destruct H as [H|H]; apply andb_true_iff in H; destruct H as [H1 H2];
    apply N.leb_le in H1; right; apply N.leb_gt; lia.
Qed.

(* ------------------------------------------------------------------ *)
(** ** Leading character of a printed number *)

(** [String(x)] on some numbers: 1234500, 1e21, 1e-7, 0.000001, -3.14, 0.5,
    123e18, -42, 1.5e-10, -0. *)
Example numberToString_samples :
  numberToString (numberOfZ 1234500) = "1234500"
  /\ numberToString (Finite false 1 22) = "1e+21"
  /\ numberToString (Finite false 1 (-6)) = "1e-7"
  /\ numberToString (Finite false 1 (-5)) = "0.000001"
  /\ numberToString (Finite true 314 1) = "-3.14"
  /\ numberToString (Finite false 5 0) = "0.5"
  /\ numberToString (Finite false 123 21) = "123000000000000000000"
  /\ numberToString (numberOfZ (-42)) = "-42"
  /\ numberToString (Finite false 15 (-9)) = "1.5e-10"
  /\ numberToString (Zero true) = "0".
Proof. repeat split. Qed.

Lemma significand_leading_digit s :
  exists d ds, significand s = String d ds /\ isAsciiDigit d = true.
Proof.
  unfold significand.
  pose proof (Unsigned.to_uint_nonnil s) as Hnil.
  destruct (Pos.to_uint s); [contradiction| ..]; simpl; eauto.
Qed.

Lemma positiveToString_leading_digit s n :
  exists d r, positiveToString s n = String d r /\ isAsciiDigit d = true.
Proof.
  unfold positiveToString.
  destruct (significand_leading_digit s) as (d & ds & Hs & Hd).
  rewrite Hs.
  destruct ((-5 <=? n) && (n <=? 21)).
  - destruct (Z.of_nat (String.length (String d ds)) <=? n).
    + simpl. eauto.
    + destruct (0 <? n) eqn:Hn.
      * apply Z.ltb_lt in Hn.
        destruct (Z.to_nat n) as [|m] eqn:Hm; [lia|].
        simpl. eauto.
      * simpl. eexists _, _. split; [reflexivity|reflexivity].
  - destruct ds; eauto.
Qed.

Lemma numberToString_negative x :
  isNegative x = true ->
  exists r, numberToString x = String "-" r.
Proof.
  destruct x as [|neg|neg|neg s n]; simpl; try discriminate;
    intros ->; simpl; eauto.
Qed.

Lemma getSortGroup_positive_finite s n :
  Part000.getSortGroup (numberToString (Finite false s n)) = 1.
Proof.
  simpl.
  destruct (positiveToString_leading_digit s n) as (d & r & -> & Hd).
  rewrite getSortGroup_cons, Hd.
  destruct (isAsciiLetter d) eqn:Hl; [|reflexivity].
  apply letter_not_digit in Hl. congruence.
Qed.

(* ------------------------------------------------------------------ *)
(** ** Value extraction *)

Lemma passedOver_unusable v : passedOver v -> usable v = false.
Proof.
  intros [(s & -> & Hs)|[(b & ->)|[(p & ->)|[(l & ->)|[->| ->]]]]]; simpl;
    try reflexivity.
  now rewrite Hs.
Qed.

Section ExtractionFacts.

Variable inherited : value -> string -> completion value.

Lemma getFirstValid_skip key rest item v :
  getValueByPath inherited item key = Normal v ->
  usable v = false ->
  Part000.getFirstValid inherited (key :: rest) item
  = Part000.getFirstValid inherited rest item.
Proof.
  intros Hv Hu. simpl. rewrite Hv. simpl.
  destruct v; simpl in Hu; try reflexivity; try discriminate.
  now rewrite Hu.
Qed.

Lemma getFirstValid_number key rest item x :
  getValueByPath inherited item key = Normal (VNum x) ->
  Part000.getFirstValid inherited (key :: rest) item
  = Normal (numberToString x).
Proof. intros Hv. simpl. now rewrite Hv. Qed.

Lemma getFirstValid_prefix pre keys item :
  noneUsable inherited pre item ->
  Part000.getFirstValid inherited (pre ++ keys)%list item
  = Part000.getFirstValid inherited keys item.
Proof.
  induction 1 as [|key pre (v & Hv & Hu) _ IH]; [reflexivity|].
  rewrite <- app_comm_cons.
  now rewrite (getFirstValid_skip key _ item v).
Qed.

Lemma getFirstValid_none keys item :
  noneUsable inherited keys item ->
  Part000.getFirstValid inherited keys item = Normal "".
Proof.
  intros H. rewrite <- (app_nil_r keys).
  now rewrite getFirstValid_prefix.
Qed.

Lemma getFirstValid_returns keys item :
  resolvesAll inherited keys item ->
  exists s, Part000.getFirstValid inherited keys item = Normal s.
Proof.
  induction 1 as [|key rest [v Hv] _ IH]; simpl; [eauto|].
  rewrite Hv. simpl.
  destruct v; eauto.
  destruct (truthy (trim s)); eauto.
Qed.

Lemma App_getFirstValid_skip key rest item v :
  getValueByPath inherited item key = Normal v ->
  (forall s, v = VStr s -> trim s = "") ->
  App.getFirstValid inherited (key :: rest) item
  = App.getFirstValid inherited rest item.
Proof.
  intros Hv Hs. simpl. rewrite Hv. simpl.
  destruct v; try reflexivity.
  now rewrite (Hs s eq_refl).
Qed.

Lemma App_getFirstValid_returns keys item :
  resolvesAll inherited keys item ->
  exists s, App.getFirstValid inherited keys item = Normal s.
Proof.
  induction 1 as [|key rest [v Hv] _ IH]; simpl; [eauto|].
  rewrite Hv. simpl.
  destruct v; eauto.
  destruct (truthy (trim s)); eauto.
Qed.

Variable localeCompare : string -> string -> Z.

Lemma compare_unfold k a b aVal bVal :
  Part000.getFirstValid inherited (normalizeKeys k) a = Normal aVal ->
  Part000.getFirstValid inherited (normalizeKeys k) b = Normal bVal ->
  Part000.createDeepPropertySorter inherited localeCompare k a b
  = Normal (if Part000.getSortGroup aVal =? Part000.getSortGroup bVal
            then localeCompare aVal bVal
            else Part000.getSortGroup aVal - Part000.getSortGroup bVal).
Proof.
  intros Ha Hb. unfold Part000.createDeepPropertySorter.
  rewrite Ha, Hb. simpl.
  now destruct (Part000.getSortGroup aVal =? Part000.getSortGroup bVal).
Qed.

Lemma App_compare_unfold k a b aVal bVal :
  App.getFirstValid inherited (normalizeKeys k) a = Normal aVal ->
  App.getFirstValid inherited (normalizeKeys k) b = Normal bVal ->
  App.createDeepPropertySorter inherited localeCompare k a b
  = Normal (if test_leading_letter aVal && negb (test_leading_letter bVal)
            then -1
            else if negb (test_leading_letter aVal) && test_leading_letter bVal
                 then 1
                 else localeCompare aVal bVal).
Proof.
  intros Ha Hb. unfold App.createDeepPropertySorter.
  rewrite Ha, Hb. simpl.
  destruct (test_leading_letter aVal), (test_leading_letter bVal); reflexivity.
Qed.

(** A comparison that returns has extracted a value from both records. *)
Lemma compare_returned k a b r :
  Part000.createDeepPropertySorter inherited localeCompare k a b = Normal r ->
  exists aVal bVal,
    Part000.getFirstValid inherited (normalizeKeys k) a = Normal aVal
    /\ Part000.getFirstValid inherited (normalizeKeys k) b = Normal bVal.
Proof.
  unfold Part000.createDeepPropertySorter.
  destruct (Part000.getFirstValid inherited (normalizeKeys k) a) as [aVal|];
    simpl; [|discriminate].
  destruct (Part000.getFirstValid inherited (normalizeKeys k) b) as [bVal|];
    simpl; [|discriminate].
  eauto.
Qed.

Lemma App_compare_returned k a b r :
  App.createDeepPropertySorter inherited localeCompare k a b = Normal r ->
  exists aVal bVal,
    App.getFirstValid inherited (normalizeKeys k) a = Normal aVal
    /\ App.getFirstValid inherited (normalizeKeys k) b = Normal bVal.
Proof.
  unfold App.createDeepPropertySorter.
  destruct (App.getFirstValid inherited (normalizeKeys k) a) as [aVal|];
    simpl; [|discriminate].
  destruct (App.getFirstValid inherited (normalizeKeys k) b) as [bVal|];
    simpl; [|discriminate].
  eauto.
Qed.

End ExtractionFacts.

(* ------------------------------------------------------------------ *)
(** ** Properties of the four-group comparator *)

Section Properties.

Variable inherited : value -> string -> completion value.
Variable localeCompare : string -> string -> Z.

(** C1: when the paths before [key] all resolve to values that are not
    usable and [key] resolves to a number, the extracted value is the
    canonical string of that number, whatever paths follow; the number zero
    is extracted as "0", which is in the digit group (1). *)
Theorem C1_number_is_first_usable item pre key post x :
  noneUsable inherited pre item ->
  getValueByPath inherited item key = Normal (VNum x) ->
  Part000.getFirstValid inherited (pre ++ key :: post)%list item
  = Normal (numberToString x)
  /\ (forall neg, x = Zero neg ->
        Part000.getFirstValid inherited (pre ++ key :: post)%list item
        = Normal "0"
        /\ Part000.getSortGroup "0" = 1).
Proof.
  intros Hpre Hkey.
  assert (Hres : Part000.getFirstValid inherited (pre ++ key :: post)%list item
                 = Normal (numberToString x)).
  { rewrite getFirstValid_prefix by assumption.
    now apply getFirstValid_number. }
  split; [exact Hres|].
  intros neg ->. split; [exact Hres|reflexivity].
Qed.

(** Two extracted values of which exactly one starts with an ASCII letter
    are in different groups. *)
Lemma leading_letter_groups_differ aVal bVal :
  test_leading_letter aVal = true ->
  test_leading_letter bVal = false ->
  Part000.getSortGroup aVal <> Part000.getSortGroup bVal.
Proof.
  intros Ha Hb Heq.
  apply getSortGroup_letter in Ha.
  rewrite Ha in Heq. symmetry in Heq.
  apply getSortGroup_letter in Heq. congruence.
Qed.

(** C2: when the two records are extracted as values whose groups differ,
    the comparator returns the difference of the groups; a letter-led value
    is in group 0, so the difference is negative when the first record is the
    letter-led one and positive when the second is. *)
Theorem C2_groups_decide k a b aVal bVal :
  Part000.getFirstValid inherited (normalizeKeys k) a = Normal aVal ->
  Part000.getFirstValid inherited (normalizeKeys k) b = Normal bVal ->
  Part000.getSortGroup aVal <> Part000.getSortGroup bVal ->
  Part000.createDeepPropertySorter inherited localeCompare k a b
  = Normal (Part000.getSortGroup aVal - Part000.getSortGroup bVal)
  /\ (test_leading_letter aVal = true ->
      Part000.getSortGroup aVal - Part000.getSortGroup bVal < 0)
  /\ (test_leading_letter bVal = true ->
      0 < Part000.getSortGroup aVal - Part000.getSortGroup bVal).
Proof.
  intros Ha Hb Hg.
  pose proof (getSortGroup_range aVal) as Hra.
  pose proof (getSortGroup_range bVal) as Hrb.
  split; [|split].
  - rewrite (compare_unfold inherited localeCompare k a b aVal bVal Ha Hb).
    apply Z.eqb_neq in Hg. now rewrite Hg.
  - intros Hl. apply getSortGroup_letter in Hl. lia.
  - intros Hl. apply getSortGroup_letter in Hl. lia.
Qed.

(** C4: a path that resolves to a string that trims to nothing, to a
    boolean, to a structure, to [null] or to [undefined] is passed over: in
    both versions the loop goes on with the paths that remain, and the value
    passed over raises nothing: when the paths that remain resolve, the loop
    returns. *)
Theorem C4_unusable_is_skipped key rest item v :
  getValueByPath inherited item key = Normal v ->
  passedOver v ->
  Part000.getFirstValid inherited (key :: rest) item
  = Part000.getFirstValid inherited rest item
  /\ App.getFirstValid inherited (key :: rest) item
     = App.getFirstValid inherited rest item
  /\ (resolvesAll inherited rest item ->
      (exists s, Part000.getFirstValid inherited (key :: rest) item = Normal s)
      /\ (exists s, App.getFirstValid inherited (key :: rest) item = Normal s)).
Proof.
  intros Hv Hp.
  assert (H4 : Part000.getFirstValid inherited (key :: rest) item
               = Part000.getFirstValid inherited rest item).
  { apply (getFirstValid_skip inherited key rest item v Hv).
    now apply passedOver_unusable. }
  assert (H2 : App.getFirstValid inherited (key :: rest) item
               = App.getFirstValid inherited rest item).
  { apply (App_getFirstValid_skip inherited key rest item v Hv).
    intros s ->.
    destruct Hp as [(s' & Heq & Hs)|[(b & Hb)|[(p & Hb)|[(l & Hb)|[Hb|Hb]]]]];
      try discriminate.
    now injection Heq as ->. }
  split; [exact H4|]. split; [exact H2|].
  intros Hrest. rewrite H4, H2. split.
  - now apply getFirstValid_returns.
  - now apply App_getFirstValid_returns.
Qed.

(** C5: the group is 3 (missing) exactly for the empty string; for any
    other string it depends on the first character alone: 0 for an ASCII
    letter, 1 for an ASCII digit, 2 for anything else, in particular for a
    first character outside ASCII. *)
Theorem C5_group_by_first_character :
  (forall v, Part000.getSortGroup v = 3 <-> v = "")
  /\ (forall c r,
        Part000.getSortGroup (String c r)
        = if isAsciiLetter c then 0 else if isAsciiDigit c then 1 else 2)
  /\ (forall c r r',
        Part000.getSortGroup (String c r) = Part000.getSortGroup (String c r'))
  /\ (forall c r, (128 <= N_of_ascii c)%N -> Part000.getSortGroup (String c r) = 2).
Proof.
  split; [|split; [|split]].
  - intros v. split.
    + destruct v as [|c r]; [reflexivity|].
      rewrite getSortGroup_cons.
      destruct (isAsciiLetter c), (isAsciiDigit c); lia.
    + intros ->. reflexivity.
  - apply getSortGroup_cons.
  - intros c r r'. now rewrite !getSortGroup_cons.
  - intros c r Hc. rewrite getSortGroup_cons.
    assert (Hl : isAsciiLetter c = false).
    { unfold isAsciiLetter. apply orb_false_iff.
      split; apply andb_false_iff; right; apply N.leb_gt; lia. }
    assert (Hd : isAsciiDigit c = false).
    { unfold isAsciiDigit. apply andb_false_iff. right. apply N.leb_gt. lia. }
    now rewrite Hl, Hd.
Qed.

End Properties.

Lemma C1_number_is_first_usable_witness :
  Part000.getFirstValid bareHost (["alias"] ++ "count" :: ["name"])%list zeroCount
  = Normal (numberToString (Zero false))
  /\ (forall neg, Zero false = Zero neg ->
        Part000.getFirstValid bareHost (["alias"] ++ "count" :: ["name"])%list zeroCount
        = Normal "0"
        /\ Part000.getSortGroup "0" = 1).
Proof.
  apply (C1_number_is_first_usable bareHost zeroCount ["alias"] "count" ["name"]
           (Zero false)).
  - constructor; [|constructor].
    exists (VStr "  "). split; reflexivity.
  - reflexivity.
Defined.

Lemma C2_groups_decide_witness :
  Part000.createDeepPropertySorter bareHost codeUnitCollation
    (ManyKeys ["alias"; "profile.name"]) john provider
  = Normal (Part000.getSortGroup "john" - Part000.getSortGroup "#provider")
  /\ (test_leading_letter "john" = true ->
      Part000.getSortGroup "john" - Part000.getSortGroup "#provider" < 0)
  /\ (test_leading_letter "#provider" = true ->
      0 < Part000.getSortGroup "john" - Part000.getSortGroup "#provider").
Proof.
  apply (C2_groups_decide bareHost codeUnitCollation
           (ManyKeys ["alias"; "profile.name"]) john provider
           "john" "#provider").
  - reflexivity.
  - reflexivity.
  - vm_compute. discriminate.
Defined.

Lemma C4_unusable_is_skipped_witness :
  Part000.getFirstValid bareHost ("alias" :: ["profile.name"]) john
  = Part000.getFirstValid bareHost ["profile.name"] john
  /\ App.getFirstValid bareHost ("alias" :: ["profile.name"]) john
     = App.getFirstValid bareHost ["profile.name"] john
  /\ (resolvesAll bareHost ["profile.name"] john ->
      (exists s, Part000.getFirstValid bareHost ("alias" :: ["profile.name"]) john
                 = Normal s)
      /\ (exists s, App.getFirstValid bareHost ("alias" :: ["profile.name"]) john
                    = Normal s)).
Proof.
  apply (C4_unusable_is_skipped bareHost "alias" ["profile.name"] john (VStr "  ")).
  - reflexivity.
  - left. exists "  ". split; reflexivity.
Defined.

(* ------------------------------------------------------------------ *)
(** ** Paths that extend a path *)

Lemma split_app sep a b :
  split sep (a ++ String sep b) = (split sep a ++ split sep b)%list.
Proof.
  induction a as [|c a IH]; simpl.
  - now rewrite Ascii.eqb_refl.
  - destruct (Ascii.eqb c sep).
    + now rewrite IH.
    + rewrite IH.
      destruct (split sep a) as [|seg segs] eqn:Hs; [|reflexivity].
      now apply split_not_nil in Hs.
Qed.

Lemma reduce_app {A B : Type} (f : A -> B -> completion A) l1 l2 init :
  reduce f (l1 ++ l2)%list init
  = (acc <- reduce f l1 init ;; reduce f l2 acc).
Proof.
  revert init. induction l1 as [|x l1 IH]; intros init; simpl; [reflexivity|].
  destruct (f init x); simpl; [apply IH|reflexivity].
Qed.

Lemma getValueByPath_extend inherited obj path rest :
  getValueByPath inherited obj (path ++ String "." rest)
  = (v <- getValueByPath inherited obj path ;;
     reduce (fun acc key => optionalChain inherited acc key) (split "." rest) v).
Proof.
  unfold getValueByPath. rewrite split_app. apply reduce_app.
Qed.

Lemma sgn_sub_opp x y : Z.sgn (x - y) = - Z.sgn (y - x).
Proof. rewrite <- Z.sgn_opp. f_equal. lia. Qed.

Section Resolution.

Variable inherited : value -> string -> completion value.

(** C3: the number branch of the four-group loop returns [String(value)]
    as it is; for [NaN] that is "NaN", which is not its own lower-cased
    form. *)
Theorem C3_nan_keeps_its_capitals :
  Part000.getFirstValid inherited ["x"] (recordOf "x" (VNum NaN)) = Normal "NaN"
  /\ toLowerCase (trim "NaN") = "nan"
  /\ Part000.getFirstValid inherited ["x"] (recordOf "x" (VNum (Infinity false)))
     = Normal "Infinity"
  /\ toLowerCase (trim "Infinity") = "infinity".
Proof. repeat split. Qed.


End Resolution.


Section Comparator.

Variable inherited : value -> string -> completion value.
Variable localeCompare : string -> string -> Z.

(** The collation of the host is a consistent comparison: swapping the
    arguments swaps the sign. *)
Hypothesis localeCompare_antisym :
  forall s t, Z.sgn (localeCompare s t) = - Z.sgn (localeCompare t s).

Lemma localeCompare_refl s : localeCompare s s = 0.
Proof.
  apply Z.sgn_null_iff.
  pose proof (localeCompare_antisym s s). lia.
Qed.

(** C7, as amended: on records from which a value is extracted (no read
    along the paths throws), the comparator returns 0 on a record and itself,
    and swapping the two records swaps the sign of the result. *)
Theorem C7_reflexive_and_antisymmetric k x y xVal yVal :
  Part000.getFirstValid inherited (normalizeKeys k) x = Normal xVal ->
  Part000.getFirstValid inherited (normalizeKeys k) y = Normal yVal ->
  Part000.createDeepPropertySorter inherited localeCompare k x x = Normal 0
  /\ exists r r',
      Part000.createDeepPropertySorter inherited localeCompare k x y = Normal r
      /\ Part000.createDeepPropertySorter inherited localeCompare k y x = Normal r'
      /\ Z.sgn r = - Z.sgn r'.
Proof.
  intros Hx Hy.
  split.
  - rewrite (compare_unfold inherited localeCompare k x x xVal xVal Hx Hx).
    rewrite Z.eqb_refl. f_equal. apply localeCompare_refl.
  - rewrite (compare_unfold inherited localeCompare k x y xVal yVal Hx Hy).
    rewrite (compare_unfold inherited localeCompare k y x yVal xVal Hy Hx).
    rewrite (Z.eqb_sym (Part000.getSortGroup yVal)).
    destruct (Part000.getSortGroup xVal =? Part000.getSortGroup yVal);
      eexists _, _; repeat split.
    + apply localeCompare_antisym.
    + apply sgn_sub_opp.
Qed.

End Comparator.

Section Missing.

Variable inherited : value -> string -> completion value.
Variable localeCompare : string -> string -> Z.

(** C8: when the list of paths is empty, or when no path resolves to a
    usable value on either record, both records are extracted as the empty
    string, both are in group 3 (missing), and the comparator returns 0,
    provided the collation takes two empty strings as equal. *)
Theorem C8_nothing_usable_ties k a b :
  localeCompare "" "" = 0 ->
  normalizeKeys k = []
  \/ (noneUsable inherited (normalizeKeys k) a
      /\ noneUsable inherited (normalizeKeys k) b) ->
  Part000.getFirstValid inherited (normalizeKeys k) a = Normal ""
  /\ Part000.getFirstValid inherited (normalizeKeys k) b = Normal ""
  /\ Part000.getSortGroup "" = 3
  /\ Part000.createDeepPropertySorter inherited localeCompare k a b = Normal 0.
Proof.
  intros Hlc Hkeys.
  assert (Ha : Part000.getFirstValid inherited (normalizeKeys k) a = Normal "").
  { destruct Hkeys as [-> | [H _]]; [reflexivity|now apply getFirstValid_none]. }
  assert (Hb : Part000.getFirstValid inherited (normalizeKeys k) b = Normal "").
  { destruct Hkeys as [-> | [_ H]]; [reflexivity|now apply getFirstValid_none]. }
  repeat split; try assumption.
  rewrite (compare_unfold inherited localeCompare k a b "" "" Ha Hb).
  simpl. now rewrite Hlc.
Qed.

End Missing.

Lemma codeUnitCollation_antisym s t :
  Z.sgn (codeUnitCollation s t) = - Z.sgn (codeUnitCollation t s).
Proof.
  unfold codeUnitCollation.
  rewrite (String.compare_antisym (toLowerCase t) (toLowerCase s)).
  now destruct (String.compare (toLowerCase s) (toLowerCase t)).
Qed.

Lemma C7_reflexive_and_antisymmetric_witness :
  Part000.createDeepPropertySorter bareHost codeUnitCollation
    (ManyKeys ["alias"; "profile.name"]) john john = Normal 0
  /\ exists r r',
      Part000.createDeepPropertySorter bareHost codeUnitCollation
        (ManyKeys ["alias"; "profile.name"]) john provider = Normal r
      /\ Part000.createDeepPropertySorter bareHost codeUnitCollation
           (ManyKeys ["alias"; "profile.name"]) provider john = Normal r'
      /\ Z.sgn r = - Z.sgn r'.
Proof.
  apply (C7_reflexive_and_antisymmetric bareHost codeUnitCollation
           codeUnitCollation_antisym (ManyKeys ["alias"; "profile.name"])
           john provider "john" "#provider"); reflexivity.
Defined.

(** C7, as stated, fails on a record that holds a function when a path
    reaches its [caller]: the comparison of the record with itself throws
    and returns no 0. *)
Lemma C7_throwing_path_counterexample :
  Part000.getFirstValid strictHost ["f.caller"] callback = Throw TypeError
  /\ Part000.createDeepPropertySorter strictHost codeUnitCollation
       (OneKey "f.caller") callback callback = Throw TypeError.
Proof. split; reflexivity. Qed.

Lemma C8_nothing_usable_ties_witness :
  Part000.getFirstValid bareHost
    (normalizeKeys (ManyKeys ["alias"; "profile.name"])) blank = Normal ""
  /\ Part000.getFirstValid bareHost
       (normalizeKeys (ManyKeys ["alias"; "profile.name"])) flagged = Normal ""
  /\ Part000.getSortGroup "" = 3
  /\ Part000.createDeepPropertySorter bareHost codeUnitCollation
       (ManyKeys ["alias"; "profile.name"]) blank flagged = Normal 0.
Proof.
  apply (C8_nothing_usable_ties bareHost codeUnitCollation
           (ManyKeys ["alias"; "profile.name"]) blank flagged).
  - reflexivity.
  - right. split.
    + constructor; [|constructor; [|constructor]].
      * exists (VStr "   "). split; reflexivity.
      * exists VUndef. split; reflexivity.
    + constructor; [|constructor; [|constructor]].
      * exists (VBool true). split; reflexivity.
      * exists VUndef. split; reflexivity.
Defined.

(* ------------------------------------------------------------------ *)
(** ** The two versions against each other *)

Section Versions.

Variable inherited : value -> string -> completion value.
Variable localeCompare : string -> string -> Z.


End Versions.

(** With no path at all, any two records tie. *)
Example empty_path_list_ties :
  Part000.createDeepPropertySorter bareHost codeUnitCollation (ManyKeys [])
    john provider = Normal 0.
Proof. reflexivity. Qed.

(** Under the collation by code units, a digit-led and a symbol-led value
    are ordered one way by the four-group version and the other way by the
    two-group version. *)
Example versions_diverge_on_digit_and_symbol :
  Part000.createDeepPropertySorter bareHost codeUnitCollation (OneKey "x")
    (recordOf "x" (VStr "1")) (recordOf "x" (VStr "#")) = Normal (-1)
  /\ App.createDeepPropertySorter bareHost codeUnitCollation (OneKey "x")
       (recordOf "x" (VStr "1")) (recordOf "x" (VStr "#")) = Normal 1.
Proof. split; reflexivity. Qed.

(* ------------------------------------------------------------------ *)
(** ** Negative numbers *)

Section Negative.

Variable inherited : value -> string -> completion value.
Variable localeCompare : string -> string -> Z.

(** C10, as amended: when the first usable value of a record is a negative
    number, the extracted value starts with '-', its group is 2 (symbol), and
    the record sorts after every record whose extracted value starts with an
    ASCII letter or a digit; when the number is finite, the positive number
    of the same magnitude is in group 1 (digit). *)
Theorem C10_negative_number_is_symbol_led k pre key post item x :
  normalizeKeys k = (pre ++ key :: post)%list ->
  noneUsable inherited pre item ->
  getValueByPath inherited item key = Normal (VNum x) ->
  isNegative x = true ->
  exists r,
    Part000.getFirstValid inherited (normalizeKeys k) item = Normal (String "-" r)
    /\ Part000.getSortGroup (String "-" r) = 2
    /\ (forall other oVal,
          Part000.getFirstValid inherited (normalizeKeys k) other = Normal oVal ->
          test_leading_letter oVal = true \/ test_leading_digit oVal = true ->
          exists p q,
            Part000.createDeepPropertySorter inherited localeCompare k item other
            = Normal p
            /\ 0 < p
            /\ Part000.createDeepPropertySorter inherited localeCompare k other item
               = Normal q
            /\ q < 0)
    /\ (isFiniteNumber x = true ->
        Part000.getSortGroup (numberToString (negate x)) = 1).
Proof.
  intros Hk Hpre Hkey Hneg.
  destruct (numberToString_negative x Hneg) as [r Hr].
  assert (Hitem : Part000.getFirstValid inherited (normalizeKeys k) item
                  = Normal (String "-" r)).
  { rewrite Hk, getFirstValid_prefix by assumption.
    rewrite <- Hr. now apply getFirstValid_number. }
  exists r. split; [exact Hitem|]. split; [reflexivity|]. split.
  - intros other oVal Hother Hlead.
    assert (Hg : Part000.getSortGroup oVal = 0 \/ Part000.getSortGroup oVal = 1).
    { destruct oVal as [|c o]; simpl in Hlead; [destruct Hlead; discriminate|].
      rewrite getSortGroup_cons.
      destruct Hlead as [Hl|Hd].
      - left. now rewrite Hl.
      - right. rewrite Hd. destruct (isAsciiLetter c) eqn:Hl; [|reflexivity].
        apply letter_not_digit in Hl. congruence. }
    rewrite (compare_unfold inherited localeCompare k item other _ _ Hitem Hother).
    rewrite (compare_unfold inherited localeCompare k other item _ _ Hother Hitem).
    change (Part000.getSortGroup (String "-" r)) with 2.
    destruct Hg as [-> | ->]; simpl; eexists _, _; repeat split; lia.
  - destruct x as [|neg|neg|neg s n]; simpl in Hneg; try discriminate.
    intros _. subst neg. apply getSortGroup_positive_finite.
Qed.

End Negative.

Lemma C10_negative_number_is_symbol_led_witness :
  exists r,
    Part000.getFirstValid bareHost (normalizeKeys (OneKey "x")) minusFive
    = Normal (String "-" r)
    /\ Part000.getSortGroup (String "-" r) = 2
    /\ (forall other oVal,
          Part000.getFirstValid bareHost (normalizeKeys (OneKey "x")) other
          = Normal oVal ->
          test_leading_letter oVal = true \/ test_leading_digit oVal = true ->
          exists p q,
            Part000.createDeepPropertySorter bareHost codeUnitCollation
              (OneKey "x") minusFive other = Normal p
            /\ 0 < p
            /\ Part000.createDeepPropertySorter bareHost codeUnitCollation
                 (OneKey "x") other minusFive = Normal q
            /\ q < 0)
    /\ (isFiniteNumber (Finite true 5 1) = true ->
        Part000.getSortGroup (numberToString (negate (Finite true 5 1))) = 1).
Proof.
  apply (C10_negative_number_is_symbol_led bareHost codeUnitCollation
           (OneKey "x") [] "x" [] minusFive (Finite true 5 1)).
  - reflexivity.
  - constructor.
  - reflexivity.
  - reflexivity.
Defined.

(** C10, as stated, fails at the negative number [-Infinity]: the positive
    number of the same magnitude prints as "Infinity", which is letter-led
    (group 0), not digit-led (group 1). *)
Lemma C10_infinity_counterexample :
  isNegative (Infinity true) = true
  /\ Part000.getFirstValid bareHost ["x"] (recordOf "x" (VNum (Infinity true)))
     = Normal "-Infinity"
  /\ Part000.getFirstValid bareHost ["x"]
       (recordOf "x" (VNum (negate (Infinity true))))
     = Normal "Infinity"
  /\ Part000.getSortGroup "Infinity" = 0.
Proof. repeat split. Qed.

(** The number -5 sorts after the digit-led string "7abc", and 5 before it
    under the collation by code units. *)
Example minus_five_after_seven :
  Part000.createDeepPropertySorter bareHost codeUnitCollation (OneKey "x")
    minusFive sevenAbc = Normal 1
  /\ Part000.createDeepPropertySorter bareHost codeUnitCollation (OneKey "x")
       (recordOf "x" (VNum (Finite false 5 1))) sevenAbc = Normal (-1).
Proof. split; reflexivity. Qed.

(* ------------------------------------------------------------------ *)
(** ** Which extracted values are lower-cased and trimmed *)

Lemma isWhiteSpace_lowerChar c : isWhiteSpace (lowerChar c) = isWhiteSpace c.
Proof. destruct c as [[] [] [] [] [] [] [] []]; reflexivity. Qed.

Lemma lowerChar_idempotent c : lowerChar (lowerChar c) = lowerChar c.
Proof. destruct c as [[] [] [] [] [] [] [] []]; reflexivity. Qed.

Lemma isNumberChar_plain c :
  isNumberChar c = true -> isWhiteSpace c = false /\ lowerChar c = c.
Proof.
  destruct c as [[] [] [] [] [] [] [] []]; intros H; try discriminate H;
    split; reflexivity.
Qed.

Lemma toLowerCase_idempotent s : toLowerCase (toLowerCase s) = toLowerCase s.
Proof.
  induction s as [|c r IH]; simpl; [reflexivity|].
  now rewrite lowerChar_idempotent, IH.
Qed.

Lemma trimStart_toLowerCase s :
  trimStart (toLowerCase s) = toLowerCase (trimStart s).
Proof.
  induction s as [|c r IH]; simpl; [reflexivity|].
  rewrite isWhiteSpace_lowerChar.
  now destruct (isWhiteSpace c).
Qed.

Lemma trimEnd_toLowerCase s :
  trimEnd (toLowerCase s) = toLowerCase (trimEnd s).
Proof.
  induction s as [|c r IH]; simpl; [reflexivity|].
  rewrite IH, isWhiteSpace_lowerChar.
  destruct (trimEnd r); simpl; [|reflexivity].
  now destruct (isWhiteSpace c).
Qed.

Lemma trim_toLowerCase s : trim (toLowerCase s) = toLowerCase (trim s).
Proof. unfold trim. now rewrite trimStart_toLowerCase, trimEnd_toLowerCase. Qed.

Lemma trimEnd_idempotent s : trimEnd (trimEnd s) = trimEnd s.
Proof.
  induction s as [|c r IH]; simpl; [reflexivity|].
  destruct (trimEnd r) as [|d r'] eqn:Hr.
  - destruct (isWhiteSpace c) eqn:Hc; simpl; [reflexivity|now rewrite Hc].
  - change (trimEnd (String c (String d r'))) with
      (match trimEnd (String d r') with
       | "" => if isWhiteSpace c then "" else String c ""
       | r'' => String c r''
       end).
    now rewrite IH.
Qed.

Lemma trimStart_head s :
  trimStart s = ""
  \/ exists c r, trimStart s = String c r /\ isWhiteSpace c = false.
Proof.
  induction s as [|c r IH]; simpl; [now left|].
  destruct (isWhiteSpace c) eqn:Hc; [exact IH|].
  right. eauto.
Qed.

Lemma trimEnd_head c r :
  isWhiteSpace c = false -> exists r', trimEnd (String c r) = String c r'.
Proof.
  intros Hc. simpl. destruct (trimEnd r); [rewrite Hc|]; eauto.
Qed.

Lemma trim_idempotent s : trim (trim s) = trim s.
Proof.
  unfold trim.
  destruct (trimStart_head s) as [-> | (c & r & -> & Hc)]; [reflexivity|].
  destruct (trimEnd_head c r Hc) as [r' Hr].
  assert (Hs : trimStart (trimEnd (String c r)) = trimEnd (String c r)).
  { rewrite Hr. simpl. now rewrite Hc. }
  rewrite Hs. apply trimEnd_idempotent.
Qed.

(** The string branch of the loop returns a lower-cased, trimmed string. *)
Lemma string_branch_lowercased_and_trimmed s :
  toLowerCase (trim (toLowerCase (trim s))) = toLowerCase (trim s).
Proof.
  now rewrite trim_toLowerCase, trim_idempotent, toLowerCase_idempotent.
Qed.

Lemma allChars_app p s t :
  allChars p (s ++ t) = allChars p s && allChars p t.
Proof.
  induction s as [|c r IH]; simpl; [reflexivity|].
  now rewrite IH, andb_assoc.
Qed.

Lemma allChars_substring p s : forall n m,
  allChars p s = true -> allChars p (substring n m s) = true.
Proof.
  induction s as [|c r IH]; intros n m H.
  - destruct n, m; assumption || reflexivity.
  - simpl in H. apply andb_true_iff in H. destruct H as [Hc Hr].
    destruct n, m; simpl; auto.
    now rewrite Hc, IH.
Qed.

Lemma allChars_zeros n : allChars isNumberChar (zeros n) = true.
Proof. induction n; simpl; auto. Qed.

Lemma allChars_dropTrailingZeros p s :
  allChars p s = true -> allChars p (dropTrailingZeros s) = true.
Proof.
  induction s as [|c r IH]; simpl; [auto|].
  intros H. apply andb_true_iff in H. destruct H as [Hc Hr].
  specialize (IH Hr).
  destruct (dropTrailingZeros r); simpl.
  - destruct (Ascii.eqb c "0"); simpl; [reflexivity|now rewrite Hc].
  - simpl in IH. now rewrite Hc, IH.
Qed.

Lemma allChars_uint u :
  allChars isNumberChar (NilEmpty.string_of_uint u) = true.
Proof. induction u; simpl; auto. Qed.

Lemma allChars_decimalOfN x : allChars isNumberChar (decimalOfN x) = true.
Proof.
  unfold decimalOfN, NilZero.string_of_uint.
  destruct (N.to_uint x) eqn:Hx; try reflexivity;
    rewrite <- Hx; apply allChars_uint.
Qed.

Lemma allChars_significand s : allChars isNumberChar (significand s) = true.
Proof.
  unfold significand.
  pose proof (allChars_uint (Pos.to_uint s)) as H.
  destruct (NilEmpty.string_of_uint (Pos.to_uint s)) as [|d ds]; [reflexivity|].
  simpl in *. apply andb_true_iff in H. destruct H as [Hd Hds].
  now rewrite Hd, allChars_dropTrailingZeros.
Qed.

Lemma allChars_exponentPart n : allChars isNumberChar (exponentPart n) = true.
Proof.
  unfold exponentPart. simpl.
  rewrite allChars_app, allChars_decimalOfN.
  now destruct (n - 1 <? 0).
Qed.

Lemma allChars_positiveToString s n :
  allChars isNumberChar (positiveToString s n) = true.
Proof.
  unfold positiveToString.
  pose proof (allChars_significand s) as Hs.
  destruct ((-5 <=? n) && (n <=? 21)).
  - destruct (Z.of_nat (String.length (significand s)) <=? n).
    + now rewrite allChars_app, Hs, allChars_zeros.
    + destruct (0 <? n).
      * rewrite allChars_app. simpl.
        now rewrite !allChars_substring.
      * simpl. now rewrite allChars_app, allChars_zeros, Hs.
  - destruct (significand s) as [|d [|d' ds]]; [reflexivity| |].
    + simpl in *. apply andb_true_iff in Hs. destruct Hs as [-> _].
      apply allChars_exponentPart.
    + change (allChars isNumberChar (String d (String d' ds))) with
        (isNumberChar d && allChars isNumberChar (String d' ds)) in Hs.
      apply andb_true_iff in Hs. destruct Hs as [Hd Hds].
      change (String d ("." ++ String d' ds ++ exponentPart n)) with
        (String d "" ++ "." ++ String d' ds ++ exponentPart n).
      rewrite !allChars_app, Hds, allChars_exponentPart.
      simpl. now rewrite Hd.
Qed.

Lemma plain_trimEnd s : allChars isNumberChar s = true -> trimEnd s = s.
Proof.
  induction s as [|c r IH]; simpl; [reflexivity|].
  intros H. apply andb_true_iff in H. destruct H as [Hc Hr].
  rewrite (IH Hr).
  destruct (isNumberChar_plain c Hc) as [Hw _].
  destruct r; [now rewrite Hw|reflexivity].
Qed.

Lemma plain_trim s : allChars isNumberChar s = true -> trim s = s.
Proof.
  intros H. unfold trim.
  assert (Hs : trimStart s = s).
  { destruct s as [|c r]; [reflexivity|]. simpl in *.
    apply andb_true_iff in H. destruct H as [Hc _].
    destruct (isNumberChar_plain c Hc) as [-> _]. reflexivity. }
  rewrite Hs. now apply plain_trimEnd.
Qed.

Lemma plain_toLowerCase s : allChars isNumberChar s = true -> toLowerCase s = s.
Proof.
  induction s as [|c r IH]; simpl; [reflexivity|].
  intros H. apply andb_true_iff in H. destruct H as [Hc Hr].
  destruct (isNumberChar_plain c Hc) as [_ ->]. now rewrite IH.
Qed.

(** A finite number is printed lower-cased and trimmed. *)
Lemma finite_number_lowercased_and_trimmed x :
  isFiniteNumber x = true ->
  toLowerCase (trim (numberToString x)) = numberToString x.
Proof.
  intros Hx.
  assert (H : allChars isNumberChar (numberToString x) = true).
  { destruct x as [|neg|neg|[] s n]; try discriminate Hx; try reflexivity;
      simpl; apply allChars_positiveToString. }
  now rewrite plain_trim, plain_toLowerCase.
Qed.

(** What the four-group loop returns is lower-cased and trimmed, unless it is
    the print of a number that is not finite ("NaN", "Infinity",
    "-Infinity"). *)
Lemma getFirstValid_lowercased_and_trimmed inherited keys item r :
  Part000.getFirstValid inherited keys item = Normal r ->
  toLowerCase (trim r) = r
  \/ exists key x,
      In key keys
      /\ getValueByPath inherited item key = Normal (VNum x)
      /\ isFiniteNumber x = false
      /\ r = numberToString x.
Proof.
  induction keys as [|key rest IH]; simpl.
  - intros [= <-]. now left.
  - destruct (getValueByPath inherited item key) as [v|e] eqn:Hv; simpl;
      [|discriminate].
    assert (Hrest : Part000.getFirstValid inherited rest item = Normal r ->
                    toLowerCase (trim r) = r
                    \/ exists key0 x,
                        (key = key0 \/ In key0 rest)
                        /\ getValueByPath inherited item key0 = Normal (VNum x)
                        /\ isFiniteNumber x = false
                        /\ r = numberToString x).
    { intros H. destruct (IH H) as [Hl|(k0 & x & Hin & Hk & Hf & Hr)];
        [now left|]. right. exists k0, x. auto. }
    destruct v; auto.
    + intros [= <-].
      destruct (isFiniteNumber x) eqn:Hx.
      * left. now apply finite_number_lowercased_and_trimmed.
      * right. exists key, x. auto.
    + destruct (truthy (trim s)); auto.
      intros [= <-]. left. apply string_branch_lowercased_and_trimmed.
Qed.

(* ------------------------------------------------------------------ *)
(** ** Further properties of path resolution *)

Lemma split_freeOf sep s : freeOf sep s = true -> split sep s = [s].
Proof.
  unfold freeOf. induction s as [|c r IH]; simpl; [reflexivity|].
  rewrite (Ascii.eqb_sym sep c).
  destruct (Ascii.eqb c sep); simpl; [discriminate|].
  intros H. now rewrite IH.
Qed.

Lemma allChars_digits_uint u :
  allChars isAsciiDigit (NilEmpty.string_of_uint u) = true.
Proof. induction u; simpl; auto. Qed.

Lemma allChars_digits_decimalOfN i : allChars isAsciiDigit (decimalOfN i) = true.
Proof.
  unfold decimalOfN, NilZero.string_of_uint.
  destruct (N.to_uint i) eqn:Hi; try reflexivity;
    rewrite <- Hi; apply allChars_digits_uint.
Qed.

Lemma digits_freeOf_dot s : allChars isAsciiDigit s = true -> freeOf "." s = true.
Proof.
  unfold freeOf. induction s as [|c r IH]; simpl; [reflexivity|].
  intros H. apply andb_true_iff in H. destruct H as [Hc Hr].
  apply IH in Hr. apply negb_true_iff in Hr. rewrite Hr.
  destruct c as [[] [] [] [] [] [] [] []]; try discriminate Hc; reflexivity.
Qed.

Lemma digits_not_length s :
  allChars isAsciiDigit s = true -> String.eqb s "length" = false.
Proof.
  destruct s as [|c r]; [reflexivity|]. simpl.
  intros H. apply andb_true_iff in H. destruct H as [Hc _].
  destruct c as [[] [] [] [] [] [] [] []]; try discriminate Hc; reflexivity.
Qed.

Lemma arrayIndex_decimalOfN i :
  (i < 10 ^ 21)%N -> arrayIndex (decimalOfN i) = Some i.
Proof.
  intros Hi. unfold arrayIndex, decimalOfN.
  assert (Hnil : N.to_uint i <> Decimal.Nil).
  { destruct i; [discriminate|]. apply Unsigned.to_uint_nonnil. }
  rewrite (NilZero.usu _ Hnil), DecimalN.Unsigned.of_to, String.eqb_refl.
  apply N.ltb_lt in Hi. now rewrite Hi.
Qed.

Section MoreResolution.

Variable inherited : value -> string -> completion value.

(** X1: resolving the path [p.q] is resolving [q] on what [p]
    resolves to. *)
Theorem getValueByPath_compose obj p q :
  getValueByPath inherited obj (p ++ String "." q)
  = (v <- getValueByPath inherited obj p ;; getValueByPath inherited v q).
Proof. apply getValueByPath_extend. Qed.

(** X2: a segment that is the decimal form of an index reads the element of
    an array at that index, and the character of a string at that index as a
    one-character string. *)
Theorem getValueByPath_index i :
  (i < 10 ^ 21)%N ->
  (forall elems v,
      nth_error elems (N.to_nat i) = Some v ->
      getValueByPath inherited (VArr elems) (decimalOfN i) = Normal v)
  /\ (forall s c,
        String.get (N.to_nat i) s = Some c ->
        getValueByPath inherited (VStr s) (decimalOfN i)
        = Normal (VStr (String c ""))).
Proof.
  intros Hi.
  pose proof (allChars_digits_decimalOfN i) as Hd.
  assert (Hsplit : split "." (decimalOfN i) = [decimalOfN i]).
  { now apply split_freeOf, digits_freeOf_dot. }
  split.
  - intros elems v Hv. unfold getValueByPath. rewrite Hsplit. simpl.
    unfold optionalChain, getMember. simpl.
    now rewrite (digits_not_length _ Hd), (arrayIndex_decimalOfN i Hi), Hv.
  - intros s c Hc. unfold getValueByPath. rewrite Hsplit. simpl.
    unfold optionalChain, getMember. simpl.
    now rewrite (digits_not_length _ Hd), (arrayIndex_decimalOfN i Hi), Hc.
Qed.

End MoreResolution.

Lemma getValueByPath_index_witness :
  (forall elems v,
      nth_error elems (N.to_nat 1) = Some v ->
      getValueByPath bareHost (VArr elems) (decimalOfN 1) = Normal v)
  /\ (forall s c,
        String.get (N.to_nat 1) s = Some c ->
        getValueByPath bareHost (VStr s) (decimalOfN 1)
        = Normal (VStr (String c ""))).
Proof.
  apply (getValueByPath_index bareHost 1%N). reflexivity.
Defined.

(** A path through an object, an array and an object again. *)
Example resolves_through_an_array :
  getValueByPath bareHost basket "items.0.name" = Normal (VStr "Pear")
  /\ getValueByPath bareHost basket "items.1.name" = Normal VUndef
  /\ getValueByPath bareHost basket "items.length" = Normal (VNum (Finite false 2 1)).
Proof. repeat split. Qed.

(* ------------------------------------------------------------------ *)
(** ** Further properties of value extraction *)

Lemma truthy_false s : truthy s = false <-> s = "".
Proof. destruct s; simpl; split; congruence. Qed.

Lemma toLowerCase_empty s : toLowerCase s = "" -> s = "".
Proof. destruct s; simpl; [reflexivity|discriminate]. Qed.

Lemma numberToString_not_empty x : numberToString x <> "".
Proof.
  destruct x as [|[]|neg|[] s n]; simpl; try discriminate.
  destruct (positiveToString_leading_digit s n) as (d & r & -> & _).
  discriminate.
Qed.

(** A string that is its own trimmed, lower-cased form does not start with
    white space. *)
Lemma fixed_not_blank_led r c r' :
  toLowerCase (trim r) = r -> r = String c r' -> isWhiteSpace c = false.
Proof.
  intros Hfix ->. unfold trim in Hfix.
  destruct (trimStart_head (String c r')) as [He | (d & t & He & Hd)];
    rewrite He in Hfix.
  - discriminate Hfix.
  - destruct (trimEnd_head d t Hd) as [t' Ht]. rewrite Ht in Hfix.
    simpl in Hfix. injection Hfix as <- _.
    now rewrite isWhiteSpace_lowerChar.
Qed.

Section MoreExtraction.

Variable inherited : value -> string -> completion value.

Lemma App_getFirstValid_prefix pre keys item :
  noneUsable inherited pre item ->
  App.getFirstValid inherited (pre ++ keys)%list item
  = App.getFirstValid inherited keys item.
Proof.
  induction 1 as [|key pre (v & Hv & Hu) _ IH]; [reflexivity|].
  rewrite <- app_comm_cons.
  rewrite (App_getFirstValid_skip inherited key _ item v Hv); [exact IH|].
  intros s ->. now apply truthy_false.
Qed.

(** X3: in both versions, when the paths before [key] resolve to nothing
    usable and [key] resolves to a string that does not trim to nothing, the
    extracted value is that string, trimmed and lower-cased, whatever paths
    follow. *)
Theorem first_usable_string_wins item pre key post s :
  noneUsable inherited pre item ->
  getValueByPath inherited item key = Normal (VStr s) ->
  trim s <> "" ->
  Part000.getFirstValid inherited (pre ++ key :: post)%list item
  = Normal (toLowerCase (trim s))
  /\ App.getFirstValid inherited (pre ++ key :: post)%list item
     = Normal (toLowerCase (trim s)).
Proof.
  intros Hpre Hkey Hs.
  assert (Ht : truthy (trim s) = true).
  { destruct (truthy (trim s)) eqn:Ht; [reflexivity|].
    now apply truthy_false in Ht. }
  split.
  - rewrite getFirstValid_prefix by assumption.
    simpl. rewrite Hkey. simpl. now rewrite Ht.
  - rewrite App_getFirstValid_prefix by assumption.
    simpl. rewrite Hkey. simpl. now rewrite Ht.
Qed.

(** X4: whatever the two-group loop returns is its own trimmed, lower-cased
    form. *)
Theorem App_extraction_lowercased_and_trimmed keys item r :
  App.getFirstValid inherited keys item = Normal r ->
  toLowerCase (trim r) = r.
Proof.
  induction keys as [|key rest IH]; simpl.
  - now intros [= <-].
  - destruct (getValueByPath inherited item key) as [v|e]; simpl;
      [|discriminate].
    destruct v; try exact IH.
    destruct (truthy (trim s)); [|exact IH].
    intros [= <-]. apply string_branch_lowercased_and_trimmed.
Qed.

(** X5: the four-group loop returns the empty string exactly when no path
    resolves to a usable value; so a record is in group 3 (missing) only
    then. *)
Theorem missing_iff_nothing_usable keys item :
  (Part000.getFirstValid inherited keys item = Normal ""
   <-> noneUsable inherited keys item)
  /\ (groupOf inherited keys item = Normal 3
      <-> noneUsable inherited keys item).
Proof.
  assert (Hiff : Part000.getFirstValid inherited keys item = Normal ""
                 <-> noneUsable inherited keys item).
  { split; [|apply getFirstValid_none].
    induction keys as [|key rest IH]; [constructor|].
    simpl.
    destruct (getValueByPath inherited item key) as [v|e] eqn:Hv; simpl;
      [|discriminate].
    intros H.
    assert (Hu : usable v = false
                 /\ Part000.getFirstValid inherited rest item = Normal "").
    { destruct v; simpl; auto.
      - injection H as H. now apply numberToString_not_empty in H.
      - destruct (truthy (trim s)) eqn:Ht; [|auto].
        injection H as H. apply toLowerCase_empty in H.
        rewrite H in Ht. discriminate Ht. }
    destruct Hu as [Hu Hrest].
    constructor; [eauto|now apply IH]. }
  split; [exact Hiff|].
  rewrite <- Hiff. unfold groupOf.
  destruct (Part000.getFirstValid inherited keys item) as [r|e]; simpl.
  - split.
    + intros [= H]. f_equal.
      destruct r as [|c r]; [reflexivity|].
      rewrite getSortGroup_cons in H.
      destruct (isAsciiLetter c), (isAsciiDigit c); discriminate H.
    + intros [= ->]. reflexivity.
  - split; discriminate.
Qed.

(** X6: the value the four-group loop extracts never starts with white
    space, so it is never put in group 2 (symbol) for a leading blank. *)
Theorem extracted_value_not_blank_led keys item c r :
  Part000.getFirstValid inherited keys item = Normal (String c r) ->
  isWhiteSpace c = false.
Proof.
  intros H.
  destruct (getFirstValid_lowercased_and_trimmed inherited keys item _ H)
    as [Hfix | (key & x & _ & _ & Hx & Hr)].
  - now apply (fixed_not_blank_led (String c r) c r).
  - destruct x as [|[]|neg|neg s n]; try discriminate Hx;
      injection Hr as -> _; reflexivity.
Qed.

Lemma getFirstValid_ext keys a a' :
  (forall key, In key keys ->
     getValueByPath inherited a key = getValueByPath inherited a' key) ->
  Part000.getFirstValid inherited keys a = Part000.getFirstValid inherited keys a'.
Proof.
  induction keys as [|key rest IH]; intros H; [reflexivity|].
  simpl. rewrite <- (H key (or_introl eq_refl)).
  rewrite IH by (intros k Hk; apply H; now right).
  reflexivity.
Qed.

(** X7: the two versions extract the same value from a record on which no
    path resolves to a number. *)
Theorem versions_extract_alike keys item :
  numberFree inherited keys item ->
  App.getFirstValid inherited keys item
  = Part000.getFirstValid inherited keys item.
Proof.
  induction 1 as [|key rest Hkey _ IH]; [reflexivity|].
  simpl.
  destruct (getValueByPath inherited item key) as [v|e] eqn:Hv; simpl;
    [|reflexivity].
  destruct v; try exact IH.
  - now destruct (Hkey x).
  - now rewrite IH.
Qed.

Variable localeCompare : string -> string -> Z.

(** X8: the four-group comparator reads its records through the configured
    paths only: two records on which every path resolves alike are
    interchangeable, on either side. *)
Theorem comparator_reads_only_the_paths k a a' b :
  (forall key, In key (normalizeKeys k) ->
     getValueByPath inherited a key = getValueByPath inherited a' key) ->
  Part000.createDeepPropertySorter inherited localeCompare k a b
  = Part000.createDeepPropertySorter inherited localeCompare k a' b
  /\ Part000.createDeepPropertySorter inherited localeCompare k b a
     = Part000.createDeepPropertySorter inherited localeCompare k b a'.
Proof.
  intros H. unfold Part000.createDeepPropertySorter.
  now rewrite (getFirstValid_ext (normalizeKeys k) a a' H).
Qed.

End MoreExtraction.

Lemma first_usable_string_wins_witness :
  Part000.getFirstValid bareHost (["alias"] ++ "profile.name" :: ["name"])%list john
  = Normal (toLowerCase (trim " John "))
  /\ App.getFirstValid bareHost (["alias"] ++ "profile.name" :: ["name"])%list john
     = Normal (toLowerCase (trim " John ")).
Proof.
  apply (first_usable_string_wins bareHost john ["alias"] "profile.name" ["name"]
           " John ").
  - constructor; [|constructor].
    exists (VStr "  "). split; reflexivity.
  - reflexivity.
  - discriminate.
Defined.

Lemma versions_extract_alike_witness :
  App.getFirstValid bareHost ["alias"; "profile.name"] john
  = Part000.getFirstValid bareHost ["alias"; "profile.name"] john.
Proof.
  apply (versions_extract_alike bareHost ["alias"; "profile.name"] john).
  constructor; [|constructor; [|constructor]]; intros x; discriminate.
Defined.

Lemma comparator_reads_only_the_paths_witness :
  Part000.createDeepPropertySorter bareHost codeUnitCollation (OneKey "alias")
    provider john
  = Part000.createDeepPropertySorter bareHost codeUnitCollation (OneKey "alias")
      (recordOf "alias" (VStr "#Provider")) john
  /\ Part000.createDeepPropertySorter bareHost codeUnitCollation (OneKey "alias")
       john provider
     = Part000.createDeepPropertySorter bareHost codeUnitCollation (OneKey "alias")
         john (recordOf "alias" (VStr "#Provider")).
Proof.
  apply (comparator_reads_only_the_paths bareHost codeUnitCollation
           (OneKey "alias") provider (recordOf "alias" (VStr "#Provider")) john).
  intros key [<- | []]. reflexivity.
Defined.

(* ------------------------------------------------------------------ *)
(** ** The comparators as orders *)

Lemma string_compare_le_trans a : forall b c,
  String.compare a b <> Gt -> String.compare b c <> Gt ->
  String.compare a c <> Gt.
Proof.
  induction a as [|x a IH]; intros [|y b] [|z c]; simpl;
    try congruence.
  unfold Ascii.compare.
  destruct (N.compare_spec (N_of_ascii x) (N_of_ascii y)) as [Hxy|Hxy|Hxy];
    destruct (N.compare_spec (N_of_ascii y) (N_of_ascii z)) as [Hyz|Hyz|Hyz];
    destruct (N.compare_spec (N_of_ascii x) (N_of_ascii z)) as [Hxz|Hxz|Hxz];
    try lia; try congruence.
  apply IH.
Qed.

Lemma codeUnitCollation_le s t :
  codeUnitCollation s t <= 0
  <-> String.compare (toLowerCase s) (toLowerCase t) <> Gt.
Proof.
  unfold codeUnitCollation.
  destruct (String.compare (toLowerCase s) (toLowerCase t));
    split; intros; congruence || lia.
Qed.

Lemma codeUnitCollation_trans s t u :
  codeUnitCollation s t <= 0 -> codeUnitCollation t u <= 0 ->
  codeUnitCollation s u <= 0.
Proof.
  rewrite !codeUnitCollation_le. apply string_compare_le_trans.
Qed.

Section CollationOrder.

Variable localeCompare : string -> string -> Z.

Hypothesis antisym :
  forall s t, Z.sgn (localeCompare s t) = - Z.sgn (localeCompare t s).

Hypothesis trans :
  forall s t u, localeCompare s t <= 0 -> localeCompare t u <= 0 ->
                localeCompare s u <= 0.

Lemma collation_flip s t : 0 <= localeCompare s t <-> localeCompare t s <= 0.
Proof.
  rewrite <- Z.sgn_nonneg, <- (Z.sgn_nonpos (localeCompare t s)).
  rewrite (antisym s t). lia.
Qed.

Lemma collation_chain s t u :
  localeCompare s t <= 0 -> localeCompare t u <= 0 ->
  localeCompare s u <= 0
  /\ (localeCompare s t < 0 \/ localeCompare t u < 0 -> localeCompare s u < 0).
Proof.
  intros Hst Htu.
  pose proof (trans s t u Hst Htu) as Hsu.
  split; [exact Hsu|].
  intros Hstrict.
  destruct (Z.eq_dec (localeCompare s u) 0) as [Hz|Hz]; [|lia].
  assert (Hus : localeCompare u s <= 0) by (apply collation_flip; lia).
  pose proof (trans u s t Hus Hst) as Hut.
  pose proof (trans t u s Htu Hus) as Hts.
  apply collation_flip in Hut. apply collation_flip in Hts. lia.
Qed.

End CollationOrder.

Section Orders.

Variable inherited : value -> string -> completion value.
Variable localeCompare : string -> string -> Z.

Lemma notAfter_groups k a b ga gb :
  notAfter (Part000.createDeepPropertySorter inherited localeCompare k) a b ->
  groupOf inherited (normalizeKeys k) a = Normal ga ->
  groupOf inherited (normalizeKeys k) b = Normal gb ->
  ga <= gb.
Proof.
  intros (r & Hr & Hle). unfold groupOf.
  destruct (compare_returned inherited localeCompare k a b r Hr)
    as (aVal & bVal & Ha & Hb).
  rewrite Ha, Hb. simpl. intros [= <-] [= <-].
  rewrite (compare_unfold inherited localeCompare k a b aVal bVal Ha Hb) in Hr.
  injection Hr as <-.
  destruct (Z.eqb_spec (Part000.getSortGroup aVal) (Part000.getSortGroup bVal));
    lia.
Qed.

(** X10: in a list of records, each with a group, in which no record sorts
    after its successor under the four-group comparator, the groups never
    decrease: every letter-led record stands before every digit-led one,
    these before every symbol-led one, and the records with nothing usable
    come last. *)
Theorem ordered_records_have_groups_in_order k l gs :
  Forall2 (fun item g => groupOf inherited (normalizeKeys k) item = Normal g) l gs ->
  Sorted (notAfter (Part000.createDeepPropertySorter inherited localeCompare k)) l ->
  StronglySorted Z.le gs.
Proof.
  intros Hgs Hsorted.
  apply Sorted_StronglySorted; [intros x y z; apply Z.le_trans|].
  induction Hgs as [|a g l gs Hg Hgs IH]; [constructor|].
  apply Sorted_inv in Hsorted. destruct Hsorted as [Hs Hhd].
  constructor; [now apply IH|].
  destruct Hhd as [|b l' Hab]; inversion Hgs; subst; constructor.
  eapply notAfter_groups; eassumption.
Qed.

(** X11: on two records from which values are extracted, the four-group
    comparator returns 0 exactly when the two values are in the same group
    and the collation takes them as equal; when the groups differ the result
    is between -3 and 3. *)
Theorem tie_only_within_a_group k a b aVal bVal :
  Part000.getFirstValid inherited (normalizeKeys k) a = Normal aVal ->
  Part000.getFirstValid inherited (normalizeKeys k) b = Normal bVal ->
  exists r,
    Part000.createDeepPropertySorter inherited localeCompare k a b = Normal r
    /\ (r = 0 <-> Part000.getSortGroup aVal = Part000.getSortGroup bVal
                  /\ localeCompare aVal bVal = 0)
    /\ (Part000.getSortGroup aVal <> Part000.getSortGroup bVal -> -3 <= r <= 3).
Proof.
  intros Ha Hb. eexists.
  split; [apply (compare_unfold inherited localeCompare k a b aVal bVal Ha Hb)|].
  pose proof (getSortGroup_range aVal). pose proof (getSortGroup_range bVal).
  destruct (Z.eqb_spec (Part000.getSortGroup aVal) (Part000.getSortGroup bVal));
    split; try split; intros; try lia; tauto.
Qed.

(** X12: two records whose extracted values are the prints of positive
    finite numbers are ordered by the collation of those prints, as strings,
    not by the numbers. *)
Theorem numbers_compare_as_strings k a b s n s' n' :
  Part000.getFirstValid inherited (normalizeKeys k) a
  = Normal (numberToString (Finite false s n)) ->
  Part000.getFirstValid inherited (normalizeKeys k) b
  = Normal (numberToString (Finite false s' n')) ->
  Part000.createDeepPropertySorter inherited localeCompare k a b
  = Normal (localeCompare (numberToString (Finite false s n))
                          (numberToString (Finite false s' n'))).
Proof.
  intros Ha Hb.
  rewrite (compare_unfold inherited localeCompare k a b _ _ Ha Hb).
  now rewrite !getSortGroup_positive_finite.
Qed.

(** X13: on two records from which both versions extract the same values,
    the two comparators agree in sign whenever the values are in the same
    group or one of them is letter-led. *)
Theorem versions_agree_in_sign k a b aVal bVal :
  Part000.getFirstValid inherited (normalizeKeys k) a = Normal aVal ->
  App.getFirstValid inherited (normalizeKeys k) a = Normal aVal ->
  Part000.getFirstValid inherited (normalizeKeys k) b = Normal bVal ->
  App.getFirstValid inherited (normalizeKeys k) b = Normal bVal ->
  Part000.getSortGroup aVal = Part000.getSortGroup bVal
  \/ test_leading_letter aVal = true
  \/ test_leading_letter bVal = true ->
  exists r4 r2,
    Part000.createDeepPropertySorter inherited localeCompare k a b = Normal r4
    /\ App.createDeepPropertySorter inherited localeCompare k a b = Normal r2
    /\ Z.sgn r4 = Z.sgn r2.
Proof.
  intros Ha4 Ha2 Hb4 Hb2 Hcase.
  rewrite (compare_unfold inherited localeCompare k a b aVal bVal Ha4 Hb4).
  rewrite (App_compare_unfold inherited localeCompare k a b aVal bVal Ha2 Hb2).
  eexists _, _. split; [reflexivity|]. split; [reflexivity|].
  pose proof (getSortGroup_range aVal) as Hra.
  pose proof (getSortGroup_range bVal) as Hrb.
  pose proof (getSortGroup_letter aVal) as Hla.
  pose proof (getSortGroup_letter bVal) as Hlb.
  destruct (test_leading_letter aVal) eqn:Ea, (test_leading_letter bVal) eqn:Eb;
    simpl;
    destruct (Z.eqb_spec (Part000.getSortGroup aVal) (Part000.getSortGroup bVal))
      as [Heq|Hne];
    try reflexivity.
  - exfalso. apply Hne. destruct Hla as [_ Hla], Hlb as [_ Hlb].
    rewrite Hla, Hlb; reflexivity.
  - exfalso. destruct Hla as [_ Hla], Hlb as [Hlb _].
    rewrite Hla in Heq by reflexivity. symmetry in Heq.
    apply Hlb in Heq. discriminate Heq.
  - destruct Hla as [_ Hla]. rewrite Hla by reflexivity.
    assert (Part000.getSortGroup bVal <> 0).
    { intros H0. apply Hlb in H0. discriminate H0. }
    destruct (Part000.getSortGroup bVal); try lia; reflexivity.
  - exfalso. destruct Hla as [Hla _], Hlb as [_ Hlb].
    rewrite Hlb in Heq by reflexivity. apply Hla in Heq. discriminate Heq.
  - destruct Hlb as [_ Hlb]. rewrite Hlb by reflexivity.
    assert (Part000.getSortGroup aVal <> 0).
    { intros H0. apply Hla in H0. discriminate H0. }
    destruct (Part000.getSortGroup aVal); try lia; reflexivity.
  - exfalso. destruct Hcase as [H|[H|H]]; congruence.
Qed.

Hypothesis antisym :
  forall s t, Z.sgn (localeCompare s t) = - Z.sgn (localeCompare t s).

(** X14: on records from which a value is extracted, the two-group
    comparator returns 0 on a record and itself, and swapping the two records
    swaps the sign of the result. *)
Theorem App_reflexive_and_antisymmetric k x y xVal yVal :
  App.getFirstValid inherited (normalizeKeys k) x = Normal xVal ->
  App.getFirstValid inherited (normalizeKeys k) y = Normal yVal ->
  App.createDeepPropertySorter inherited localeCompare k x x = Normal 0
  /\ exists r r',
      App.createDeepPropertySorter inherited localeCompare k x y = Normal r
      /\ App.createDeepPropertySorter inherited localeCompare k y x = Normal r'
      /\ Z.sgn r = - Z.sgn r'.
Proof.
  intros Hx Hy.
  split.
  - rewrite (App_compare_unfold inherited localeCompare k x x xVal xVal Hx Hx).
    f_equal.
    assert (H0 : localeCompare xVal xVal = 0).
    { apply Z.sgn_null_iff. pose proof (antisym xVal xVal). lia. }
    now destruct (test_leading_letter xVal).
  - rewrite (App_compare_unfold inherited localeCompare k x y xVal yVal Hx Hy).
    rewrite (App_compare_unfold inherited localeCompare k y x yVal xVal Hy Hx).
    eexists _, _. split; [reflexivity|]. split; [reflexivity|].
    destruct (test_leading_letter xVal), (test_leading_letter yVal); simpl;
      try reflexivity; apply antisym.
Qed.

Hypothesis trans :
  forall s t u, localeCompare s t <= 0 -> localeCompare t u <= 0 ->
                localeCompare s u <= 0.

(** X15: the four-group comparator is transitive: if [a] does not sort
    after [b] nor [b] after [c], then [a] does not sort after [c], and it
    sorts before [c] when one of the two steps is strict. *)
Theorem four_group_transitive k a b c r1 r2 :
  Part000.createDeepPropertySorter inherited localeCompare k a b = Normal r1 ->
  Part000.createDeepPropertySorter inherited localeCompare k b c = Normal r2 ->
  r1 <= 0 -> r2 <= 0 ->
  exists r3,
    Part000.createDeepPropertySorter inherited localeCompare k a c = Normal r3
    /\ r3 <= 0
    /\ (r1 < 0 \/ r2 < 0 -> r3 < 0).
Proof.
  intros Hab Hbc.
  destruct (compare_returned inherited localeCompare k a b r1 Hab)
    as (aVal & bVal & Ha & Hb).
  destruct (compare_returned inherited localeCompare k b c r2 Hbc)
    as (bVal' & cVal & Hb' & Hc).
  assert (bVal' = bVal) by congruence. subst bVal'.
  revert Hab Hbc.
  rewrite (compare_unfold inherited localeCompare k a b aVal bVal Ha Hb).
  rewrite (compare_unfold inherited localeCompare k b c bVal cVal Hb Hc).
  rewrite (compare_unfold inherited localeCompare k a c aVal cVal Ha Hc).
  intros [= <-] [= <-] H1 H2. eexists. split; [reflexivity|].
  destruct (Z.eqb_spec (Part000.getSortGroup aVal) (Part000.getSortGroup bVal));
    destruct (Z.eqb_spec (Part000.getSortGroup bVal) (Part000.getSortGroup cVal));
    destruct (Z.eqb_spec (Part000.getSortGroup aVal) (Part000.getSortGroup cVal));
    try lia.
  apply (collation_chain localeCompare antisym trans); assumption.
Qed.

(** X16: the two-group comparator is transitive in the same sense. *)
Theorem App_transitive k a b c r1 r2 :
  App.createDeepPropertySorter inherited localeCompare k a b = Normal r1 ->
  App.createDeepPropertySorter inherited localeCompare k b c = Normal r2 ->
  r1 <= 0 -> r2 <= 0 ->
  exists r3,
    App.createDeepPropertySorter inherited localeCompare k a c = Normal r3
    /\ r3 <= 0
    /\ (r1 < 0 \/ r2 < 0 -> r3 < 0).
Proof.
  intros Hab Hbc.
  destruct (App_compare_returned inherited localeCompare k a b r1 Hab)
    as (aVal & bVal & Ha & Hb).
  destruct (App_compare_returned inherited localeCompare k b c r2 Hbc)
    as (bVal' & cVal & Hb' & Hc).
  assert (bVal' = bVal) by congruence. subst bVal'.
  revert Hab Hbc.
  rewrite (App_compare_unfold inherited localeCompare k a b aVal bVal Ha Hb).
  rewrite (App_compare_unfold inherited localeCompare k b c bVal cVal Hb Hc).
  rewrite (App_compare_unfold inherited localeCompare k a c aVal cVal Ha Hc).
  intros [= <-] [= <-] H1 H2. eexists. split; [reflexivity|].
  destruct (test_leading_letter aVal), (test_leading_letter bVal),
    (test_leading_letter cVal); simpl in *; try lia;
    apply (collation_chain localeCompare antisym trans); assumption.
Qed.

End Orders.

Lemma extracted_value_not_blank_led_witness : isWhiteSpace "j" = false.
Proof.
  apply (extracted_value_not_blank_led bareHost ["alias"; "profile.name"] john
           "j" "ohn").
  reflexivity.
Defined.

Lemma ordered_records_have_groups_in_order_witness :
  StronglySorted Z.le [0; 1; 2; 3].
Proof.
  apply (ordered_records_have_groups_in_order bareHost codeUnitCollation
           (OneKey "x") [alpha; sevenAbc; hash; nothing] [0; 1; 2; 3]).
  - repeat constructor.
  - repeat constructor;
      (eexists; split; [reflexivity | vm_compute; discriminate]).
Defined.

Lemma tie_only_within_a_group_witness :
  exists r,
    Part000.createDeepPropertySorter bareHost codeUnitCollation (OneKey "x")
      alpha hash = Normal r
    /\ (r = 0 <-> Part000.getSortGroup "alpha" = Part000.getSortGroup "#tag"
                  /\ codeUnitCollation "alpha" "#tag" = 0)
    /\ (Part000.getSortGroup "alpha" <> Part000.getSortGroup "#tag" ->
        -3 <= r <= 3).
Proof.
  apply (tie_only_within_a_group bareHost codeUnitCollation (OneKey "x")
           alpha hash "alpha" "#tag"); reflexivity.
Defined.

Lemma App_extraction_lowercased_and_trimmed_witness :
  toLowerCase (trim "john") = "john".
Proof.
  apply (App_extraction_lowercased_and_trimmed bareHost
           ["alias"; "profile.name"] john "john").
  reflexivity.
Defined.

Lemma numbers_compare_as_strings_witness :
  Part000.createDeepPropertySorter bareHost codeUnitCollation (OneKey "x") ten nine
  = Normal (codeUnitCollation (numberToString (Finite false 10 2))
                              (numberToString (Finite false 9 1))).
Proof.
  apply (numbers_compare_as_strings bareHost codeUnitCollation (OneKey "x")
           ten nine 10 2 9 1); reflexivity.
Defined.

(** Under the collation by code units, 10 sorts before 9. *)
Example ten_sorts_before_nine :
  Part000.createDeepPropertySorter bareHost codeUnitCollation (OneKey "x") ten nine
  = Normal (-1).
Proof. reflexivity. Qed.

Lemma versions_agree_in_sign_witness :
  exists r4 r2,
    Part000.createDeepPropertySorter bareHost codeUnitCollation
      (ManyKeys ["alias"; "profile.name"]) john provider = Normal r4
    /\ App.createDeepPropertySorter bareHost codeUnitCollation
         (ManyKeys ["alias"; "profile.name"]) john provider = Normal r2
    /\ Z.sgn r4 = Z.sgn r2.
Proof.
  apply (versions_agree_in_sign bareHost codeUnitCollation
           (ManyKeys ["alias"; "profile.name"]) john provider "john" "#provider");
    try reflexivity.
  right. left. reflexivity.
Defined.

Lemma App_reflexive_and_antisymmetric_witness :
  App.createDeepPropertySorter bareHost codeUnitCollation
    (ManyKeys ["alias"; "profile.name"]) john john = Normal 0
  /\ exists r r',
      App.createDeepPropertySorter bareHost codeUnitCollation
        (ManyKeys ["alias"; "profile.name"]) john provider = Normal r
      /\ App.createDeepPropertySorter bareHost codeUnitCollation
           (ManyKeys ["alias"; "profile.name"]) provider john = Normal r'
      /\ Z.sgn r = - Z.sgn r'.
Proof.
  apply (App_reflexive_and_antisymmetric bareHost codeUnitCollation
           codeUnitCollation_antisym (ManyKeys ["alias"; "profile.name"])
           john provider "john" "#provider"); reflexivity.
Defined.

Lemma four_group_transitive_witness :
  exists r3,
    Part000.createDeepPropertySorter bareHost codeUnitCollation (OneKey "x")
      alpha hash = Normal r3
    /\ r3 <= 0
    /\ (-1 < 0 \/ -1 < 0 -> r3 < 0).
Proof.
  apply (four_group_transitive bareHost codeUnitCollation
           codeUnitCollation_antisym codeUnitCollation_trans (OneKey "x")
           alpha sevenAbc hash (-1) (-1)).
  - reflexivity.
  - reflexivity.
  - discriminate.
  - discriminate.
Defined.

Lemma App_transitive_witness :
  exists r3,
    App.createDeepPropertySorter bareHost codeUnitCollation (OneKey "x")
      alpha sevenAbc = Normal r3
    /\ r3 <= 0
    /\ (-1 < 0 \/ -1 < 0 -> r3 < 0).
Proof.
  apply (App_transitive bareHost codeUnitCollation
           codeUnitCollation_antisym codeUnitCollation_trans (OneKey "x")
           alpha hash sevenAbc (-1) (-1)).
  - reflexivity.
  - reflexivity.
  - discriminate.
  - discriminate.
Defined.

(** The records of the repository's first sorting test: the one extracted as
    "delta" sorts before the one extracted as "john" in both versions, and
    both sort after "anna" and before "#provider". *)
Example delta_sorts_before_john :
  let keys := ManyKeys ["alias"; "profile.name"; "name"] in
  let r1 := VObj [("alias", VStr ""); ("profile", recordOf "name" (VStr "John"));
                  ("name", VStr "Alpha")] in
  let r2 := VObj [("alias", VStr "#Provider");
                  ("profile", recordOf "name" (VStr "Zack")); ("name", VStr "Zeta")] in
  let r3 := VObj [("alias", VStr "Anna"); ("profile", recordOf "name" (VStr "Beta"));
                  ("name", VStr "Bravo")] in
  let r4 := recordOf "name" (VStr "Delta") in
  Part000.createDeepPropertySorter bareHost codeUnitCollation keys r4 r1 = Normal (-1)
  /\ App.createDeepPropertySorter bareHost codeUnitCollation keys r4 r1 = Normal (-1)
  /\ App.createDeepPropertySorter bareHost codeUnitCollation keys r3 r4 = Normal (-1)
  /\ App.createDeepPropertySorter bareHost codeUnitCollation keys r1 r2 = Normal (-1).
Proof. repeat split. Qed.
